(** * ArduinoLog: level gate and format interpreter

    A shallow embedding of [src/ArduinoLog.h] (class [Logging]) in the build
    where [DISABLE_LOGGING] is not defined.  The sink objects ([Print]) live
    in a heap; a [Print*] is [None] for [NULL] and [Some a] for the sink at
    address [a].  Undefined behaviour (dereferencing [NULL] or a dangling
    pointer, reading outside an array, pulling an argument of the wrong
    type from the [va_list]) is the result [None]. *)

From Stdlib Require Import ZArith Ascii String Strings.Byte.
From stdpp Require Import base option gmap strings list.

Local Open Scope string_scope.
Local Open Scope Z_scope.

(** ** Severity levels ([#define LOG_LEVEL_...]) *)

Definition LOG_LEVEL_SILENT : Z := 0.
Definition LOG_LEVEL_FATAL : Z := 1.
Definition LOG_LEVEL_ERROR : Z := 2.
Definition LOG_LEVEL_WARNING : Z := 3.
Definition LOG_LEVEL_NOTICE : Z := 4.
Definition LOG_LEVEL_TRACE : Z := 5.
Definition LOG_LEVEL_VERBOSE : Z := 6.

(** The terminator of a C string, and the array object of a string literal:
    its characters followed by the terminator. *)
Definition NUL : ascii := Ascii.zero.
Definition c_str (s : string) : string := s +:+ String NUL EmptyString.

(** ** The platform

    What the source takes from its build target: whether [ESP8266] is
    defined (the [%S] and [%I] branches of [printFormat] are compiled only
    when it is not), the type [double], and the text [Print::print(double)]
    writes for one, which is the sink's own rule. *)
Class Platform := {
  ESP8266 : bool;
  double : Type;
  print_double : double -> string
}.

(** ** The sink: Arduino's [Print], a write-only character stream *)

Abbreviation addr := nat (only parsing).
(** A sink is known by the characters it has received so far. *)
Abbreviation heap := (gmap nat string) (only parsing).

(** Modelled from the spec: the macro [constrain] of Arduino.h is not part of
    src/; "values below SILENT become SILENT, above VERBOSE become VERBOSE". *)
Definition constrain (amt low high : Z) : Z :=
  if amt <? low then low else if amt >? high then high else amt.

Module Print.

(** Radix constants of Print.h. *)
Definition DEC : Z := 10.
Definition HEX : Z := 16.
Definition BIN : Z := 2.

(** Modelled from the spec: the sink is Arduino's Print class, which is not
    part of src/; it can "write one character, write a null-terminated
    character sequence, write an integer in a given radix".  Every [print]
    overload ends in writes of characters to the stream, and a write through
    a null or dangling pointer is undefined. *)
Definition write (p : option addr) (s : string) (h : heap) : option heap :=
  a ← p; out ← h !! a; Some (<[a := out +:+ s]> h).

(** Modelled from the spec: the sink's "write an integer in a given radix"
    is Arduino's Print class, which is not part of src/.  Digits are
    "lowercase hexadecimal", "binary digits", "decimal rendering, no
    leading zeros". *)
Definition digit (d : Z) : ascii :=
  if d <? 10 then ascii_of_N (Z.to_N (48 + d))
  else ascii_of_N (Z.to_N (97 + (d - 10))).

(** Modelled from the spec: digits of a non-negative [n], most significant
    first, at least one digit; a 32-bit value has at most 32 of them. *)
Fixpoint printNumber_loop (fuel : nat) (n base : Z) (str : string) : string :=
  let str' := String (digit (n mod base)) str in
  match fuel with
  | O => str'
  | S fuel' =>
      if n / base =? 0 then str' else printNumber_loop fuel' (n / base) base str'
  end.

Definition printNumber (n base : Z) : string :=
  printNumber_loop 32 (n mod 2 ^ 32) base "".

(** Modelled from the spec: [print(long, base)]: in base ten "minus sign if
    negative"; in the other bases the value is read as unsigned long. *)
Definition long_text (n base : Z) : string :=
  if base =? DEC then
    if n <? 0 then String "-" (printNumber (- n) DEC) else printNumber n DEC
  else printNumber n base.

Definition print_char (p : option addr) (c : ascii) : heap -> option heap :=
  write p (String c EmptyString).

Definition print_str (p : option addr) (s : string) : heap -> option heap :=
  write p s.

Definition print_long (p : option addr) (n base : Z) : heap -> option heap :=
  write p (long_text n base).

Definition print_ulong (p : option addr) (n base : Z) : heap -> option heap :=
  write p (printNumber n base).

Definition print_double {platform : Platform} (p : option addr) (d : double)
  : heap -> option heap :=
  write p (print_double d).

End Print.

Arguments Print.write : simpl never.

(** ** The variadic argument list *)

Section Logging.
Context {platform : Platform}.

(** One argument as it sits in the [va_list], after the default argument
    promotions.  A pointer to characters is known by the characters it
    points to, up to their terminator. *)
Inductive va_value : Type :=
| va_int (n : Z)
| va_long (n : Z)
| va_ulong (n : Z)
| va_double (d : double)
| va_charp (s : string)
| va_flashp (s : string)
| va_String (s : string)
| va_IPAddress (ip0 ip1 ip2 ip3 : byte).

Definition va_list : Type := list va_value.

(** [va_arg(args, T)]: the next argument, which must have been passed as a
    [T]. *)
Definition va_arg_int (args : va_list) : option (Z * va_list) :=
  match args with va_int n :: args' => Some (n, args') | _ => None end.

Definition va_arg_long (args : va_list) : option (Z * va_list) :=
  match args with va_long n :: args' => Some (n, args') | _ => None end.

Definition va_arg_ulong (args : va_list) : option (Z * va_list) :=
  match args with va_ulong n :: args' => Some (n, args') | _ => None end.

Definition va_arg_double (args : va_list) : option (double * va_list) :=
  match args with va_double d :: args' => Some (d, args') | _ => None end.

Definition va_arg_String (args : va_list) : option (string * va_list) :=
  match args with va_String s :: args' => Some (s, args') | _ => None end.

Definition va_arg_IPAddress (args : va_list)
  : option (byte * byte * byte * byte * va_list) :=
  match args with
  | va_IPAddress a b c d :: args' => Some (a, b, c, d, args')
  | _ => None
  end.

(** [(char * )va_arg(args, int)] and [(__FlashStringHelper * )va_arg(args, int)]:
    the pointer is read back through an [int] slot, which holds it on the
    targets where the two have the same width. *)
Definition va_arg_charp (args : va_list) : option (string * va_list) :=
  match args with va_charp s :: args' => Some (s, args') | _ => None end.

Definition va_arg_flashp (args : va_list) : option (string * va_list) :=
  match args with va_flashp s :: args' => Some (s, args') | _ => None end.

(** ** class Logging *)

(** [typedef void ( *printfunction)(Print * )]: a hook receives the sink
    pointer and acts on the sinks. *)
Definition printfunction : Type := option addr -> heap -> option heap.

Record Logging : Type := {
  _level : Z;
  _showLevel : bool;
  _logOutput : option addr;
  _prefix : option printfunction;
  _suffix : option printfunction
}.

(** [Logging::Logging()] with the default member initialisers of the hooks. *)
Definition Logging_new : Logging :=
  {| _level := LOG_LEVEL_SILENT;
     _showLevel := true;
     _logOutput := None;
     _prefix := None;
     _suffix := None |}.

Definition setLevel (level : Z) (this : Logging) : Logging :=
  {| _level := constrain level LOG_LEVEL_SILENT LOG_LEVEL_VERBOSE;
     _showLevel := _showLevel this;
     _logOutput := _logOutput this;
     _prefix := _prefix this;
     _suffix := _suffix this |}.

Definition getLevel (this : Logging) : Z := _level this.

Definition setOutput (output : option addr) (this : Logging) : Logging :=
  {| _level := _level this;
     _showLevel := _showLevel this;
     _logOutput := output;
     _prefix := _prefix this;
     _suffix := _suffix this |}.

Definition setShowLevel (showLevel : bool) (this : Logging) : Logging :=
  {| _level := _level this;
     _showLevel := showLevel;
     _logOutput := _logOutput this;
     _prefix := _prefix this;
     _suffix := _suffix this |}.

Definition getShowLevel (this : Logging) : bool := _showLevel this.

Definition setPrefix (f : option printfunction) (this : Logging) : Logging :=
  {| _level := _level this;
     _showLevel := _showLevel this;
     _logOutput := _logOutput this;
     _prefix := f;
     _suffix := _suffix this |}.

Definition setSuffix (f : option printfunction) (this : Logging) : Logging :=
  {| _level := _level this;
     _showLevel := _showLevel this;
     _logOutput := _logOutput this;
     _prefix := _prefix this;
     _suffix := f |}.

Definition begin (level : Z) (logOutput : option addr) (showLevel : bool)
    (this : Logging) : Logging :=
  setOutput logOutput (setShowLevel showLevel (setLevel level this)).

(** ** The format interpreter *)

(** A format string is the array it points into, from the pointed character
    to the end of the array: dereferencing reads the first character,
    incrementing drops it, and reading past the end is undefined. *)
Inductive format_t : Type :=
| ram (buf : string)
| flash (buf : string).

(** [sprintf(s, "%d", v)] for one octet of an address. *)
Definition sprintf_d (v : byte) : string :=
  Print.long_text (Z.of_N (Byte.to_N v)) Print.DEC.

(** [void Logging::printFormat(const char format, va_list *args)] *)
Definition printFormat (this : Logging) (format : ascii) (args : va_list)
    (h : heap) : option (va_list * heap) :=
  let out := _logOutput this in
  if (format =? "%")%char then
    h ← Print.print_char out format h; Some (args, h)
  else if (format =? "s")%char then
    '(s, args) ← va_arg_charp args;
    h ← Print.print_str out s h; Some (args, h)
  else if negb ESP8266 && (format =? "S")%char then
    '(s, args) ← va_arg_String args;
    h ← Print.print_str out s h; Some (args, h)
  else if negb ESP8266 && (format =? "I")%char then
    '(ip0, ip1, ip2, ip3, args) ← va_arg_IPAddress args;
    let s := sprintf_d ip0 +:+ "." +:+ sprintf_d ip1 +:+ "."
             +:+ sprintf_d ip2 +:+ "." +:+ sprintf_d ip3 in
    h ← Print.print_str out s h; Some (args, h)
  else if (format =? "P")%char then
    '(s, args) ← va_arg_flashp args;
    h ← Print.print_str out s h; Some (args, h)
  else if (format =? "d")%char || (format =? "i")%char then
    '(n, args) ← va_arg_int args;
    h ← Print.print_long out n Print.DEC h; Some (args, h)
  else if (format =? "D")%char || (format =? "F")%char then
    '(d, args) ← va_arg_double args;
    h ← Print.print_double out d h; Some (args, h)
  else if (format =? "x")%char then
    '(n, args) ← va_arg_int args;
    h ← Print.print_long out n Print.HEX h; Some (args, h)
  else if (format =? "X")%char then
    h ← Print.print_str out "0x" h;
    '(n, args) ← va_arg_int args;
    h ← Print.print_long out n Print.HEX h; Some (args, h)
  else if (format =? "b")%char then
    '(n, args) ← va_arg_int args;
    h ← Print.print_long out n Print.BIN h; Some (args, h)
  else if (format =? "B")%char then
    h ← Print.print_str out "0b" h;
    '(n, args) ← va_arg_int args;
    h ← Print.print_long out n Print.BIN h; Some (args, h)
  else if (format =? "l")%char then
    '(n, args) ← va_arg_long args;
    h ← Print.print_long out n Print.DEC h; Some (args, h)
  else if (format =? "u")%char then
    '(n, args) ← va_arg_ulong args;
    h ← Print.print_ulong out n Print.DEC h; Some (args, h)
  else if (format =? "c")%char then
    '(n, args) ← va_arg_int args;
    h ← Print.print_char out (ascii_of_N (Z.to_N (n mod 256))) h;
    Some (args, h)
  else if (format =? "t")%char then
    '(n, args) ← va_arg_int args;
    h ← (if n =? 1 then Print.print_str out "T" h
         else Print.print_str out "F" h);
    Some (args, h)
  else if (format =? "T")%char then
    '(n, args) ← va_arg_int args;
    h ← (if n =? 1 then Print.print_str out "true" h
         else Print.print_str out "false" h);
    Some (args, h)
  else Some (args, h).

(** [void Logging::print(const char *format, va_list args)] *)
Fixpoint print (this : Logging) (format : string) (args : va_list) (h : heap)
    {struct format} : option heap :=
  match format with
  | EmptyString => None
  | String c format1 =>
      if (c =? NUL)%char then Some h
      else if (c =? "%")%char then
        match format1 with
        | EmptyString => None
        | String c1 format2 =>
            '(args, h) ← printFormat this c1 args h;
            print this format2 args h
        end
      else
        h ← Print.print_char (_logOutput this) c h;
        print this format1 args h
  end.

(** The loop of [void Logging::print(const __FlashStringHelper *format,
    va_list args)]: [c] is the character read last, [p] the read pointer,
    already moved past it. *)
Fixpoint print_P_loop (this : Logging) (p : string) (c : ascii)
    (args : va_list) (h : heap) {struct p} : option heap :=
  if (c =? NUL)%char then Some h
  else if (c =? "%")%char then
    match p with
    | EmptyString => None
    | String c1 p1 =>
        '(args, h) ← printFormat this c1 args h;
        match p1 with
        | EmptyString => None
        | String c2 p2 => print_P_loop this p2 c2 args h
        end
    end
  else
    h ← Print.print_char (_logOutput this) c h;
    match p with
    | EmptyString => None
    | String c1 p1 => print_P_loop this p1 c1 args h
    end.

(** [void Logging::print(const __FlashStringHelper *format, va_list args)] *)
Definition print_P (this : Logging) (format : string) (args : va_list)
    (h : heap) : option heap :=
  match format with
  | EmptyString => None
  | String c p => print_P_loop this p c args h
  end.

(** The call [print(msg, args)] of [printLevel]: the overload is chosen by
    the type of [msg]. *)
Definition print_msg (this : Logging) (msg : format_t) (args : va_list)
    (h : heap) : option heap :=
  match msg with
  | ram format => print this format args h
  | flash format => print_P this format args h
  end.

(** ** The level gate *)

(** [static const char levels[] = "FEWNTV"] and its subscript. *)
Definition levels : string := c_str "FEWNTV".

Definition subscript (arr : string) (i : Z) : option ascii :=
  if i <? 0 then None else String.get (Z.to_nat i) arr.

(** [template <class T> void printLevel(int level, T msg, ...)] *)
Definition printLevel (this : Logging) (level : Z) (msg : format_t)
    (args : va_list) (h : heap) : option heap :=
  if level >? _level this then Some h
  else
    h ← match _prefix this with
        | Some f => f (_logOutput this) h
        | None => Some h
        end;
    h ← (if _showLevel this then
           c ← subscript levels (level - 1);
           h ← Print.print_char (_logOutput this) c h;
           Print.print_str (_logOutput this) ": " h
         else Some h);
    h ← print_msg this msg args h;
    match _suffix this with
    | Some f => f (_logOutput this) h
    | None => Some h
    end.

Definition fatal (this : Logging) := printLevel this LOG_LEVEL_FATAL.
Definition error (this : Logging) := printLevel this LOG_LEVEL_ERROR.
Definition warning (this : Logging) := printLevel this LOG_LEVEL_WARNING.
Definition notice (this : Logging) := printLevel this LOG_LEVEL_NOTICE.
Definition trace (this : Logging) := printLevel this LOG_LEVEL_TRACE.
Definition verbose (this : Logging) := printLevel this LOG_LEVEL_VERBOSE.

(** The six leveled entry points, by severity. *)
Inductive severity : Type := FATAL | ERROR | WARNING | NOTICE | TRACE | VERBOSE.

Definition level_of (s : severity) : Z :=
  match s with
  | FATAL => LOG_LEVEL_FATAL
  | ERROR => LOG_LEVEL_ERROR
  | WARNING => LOG_LEVEL_WARNING
  | NOTICE => LOG_LEVEL_NOTICE
  | TRACE => LOG_LEVEL_TRACE
  | VERBOSE => LOG_LEVEL_VERBOSE
  end.

Definition entry_point (s : severity)
  : Logging -> format_t -> va_list -> heap -> option heap :=
  match s with
  | FATAL => fatal
  | ERROR => error
  | WARNING => warning
  | NOTICE => notice
  | TRACE => trace
  | VERBOSE => verbose
  end.

End Logging.

(** A target without [ESP8266] on which no floating-point argument is ever
    passed. *)
Definition avr : Platform :=
  {| ESP8266 := false; double := Empty_set; print_double := fun _ => "" |}.


(** ** Vocabulary of the properties *)

(** The characters [printFormat] has a branch for. *)
Definition recognized : list ascii :=
  ["%"; "s"; "S"; "I"; "P"; "d"; "i"; "D"; "F"; "x"; "X"; "b"; "B"; "l";
   "u"; "c"; "t"; "T"]%char.

(** A hook that faults whenever it is called, and one that writes [w]. *)
Definition faulting_hook : printfunction := λ _ _, None.
Definition writing_hook (w : string) : printfunction := λ p h, Print.write p w h.

(** [hook_writes a f w]: called with the sink at [a], the hook [f] appends
    [w] to that sink and does nothing else; no hook writes nothing. *)
Definition hook_writes (a : nat) (f : option printfunction) (w : string) : Prop :=
  match f with
  | None => w = ""
  | Some f => ∀ (h : heap) (o : string),
      h !! a = Some o → f (Some a) h = Some (<[a := o +:+ w]> h)
  end.

(** The formatted body of a message: what the interpreter writes for it to
    a sink that has received nothing yet. *)
Definition probe : Logging := setOutput (Some 0%nat) Logging_new.

Definition formatted {platform : Platform} (msg : format_t) (args : va_list)
  : option string :=
  h ← print_msg probe msg args {[ 0%nat := "" ]}; h !! 0%nat.

(** The severity letter of each entry point, and the level indicator. *)
Definition letter (s : severity) : ascii :=
  match s with
  | FATAL => "F" | ERROR => "E" | WARNING => "W"
  | NOTICE => "N" | TRACE => "T" | VERBOSE => "V"
  end%char.

Definition indicator (showLevel : bool) (s : severity) : string :=
  if showLevel then String (letter s) ": " else "".

(** Two runs write the same text [w], each to its own sink. *)
Definition same_text (a a' : nat) (h h' : heap) (o o' : string)
    (h1 h2 : heap) : Prop :=
  ∃ w, h1 = <[a := o +:+ w]> h ∧ h2 = <[a' := o' +:+ w]> h'.

(** Two runs end alike: both undefined, or both defined with results
    related by [post]. *)
Definition sim_result {A : Type} (post : A → A → Prop) (r r' : option A) : Prop :=
  match r, r' with
  | Some x, Some x' => post x x'
  | None, None => True
  | _, _ => False
  end.

(** A target with [ESP8266] on which no floating-point argument is ever
    passed. *)
Definition esp8266 : Platform :=
  {| ESP8266 := true; double := Empty_set; print_double := fun _ => "" |}.

(** One call of the configuration interface, and a logger configured by a
    sequence of such calls after its construction. *)
Inductive config_op : Type :=
| op_begin (level : Z) (logOutput : option addr) (showLevel : bool)
| op_setLevel (level : Z)
| op_setShowLevel (showLevel : bool)
| op_setPrefix (f : option printfunction)
| op_setSuffix (f : option printfunction)
| op_setOutput (output : option addr).

Definition configure (this : Logging) (op : config_op) : Logging :=
  match op with
  | op_begin level logOutput showLevel => begin level logOutput showLevel this
  | op_setLevel level => setLevel level this
  | op_setShowLevel showLevel => setShowLevel showLevel this
  | op_setPrefix f => setPrefix f this
  | op_setSuffix f => setSuffix f this
  | op_setOutput output => setOutput output this
  end.

Definition configured (ops : list config_op) : Logging :=
  fold_left configure ops Logging_new.

(** The configuration calls that assign the sink pointer, and those that
    assign the threshold. *)
Definition sets_sink (op : config_op) : bool :=
  match op with
  | op_begin _ _ _ | op_setOutput _ => true
  | _ => false
  end.

Definition sets_level (op : config_op) : bool :=
  match op with
  | op_begin _ _ _ | op_setLevel _ => true
  | _ => false
  end.

(** Text without the escape marker and without a terminator, and text
    without a terminator. *)
Fixpoint plain (s : string) : bool :=
  match s with
  | EmptyString => true
  | String c s' => negb (c =? NUL)%char && negb (c =? "%")%char && plain s'
  end.

Fixpoint no_nul (s : string) : bool :=
  match s with
  | EmptyString => true
  | String c s' => negb (c =? NUL)%char && no_nul s'
  end.

(** A text with every '%' doubled. *)
Fixpoint escape_percent (s : string) : string :=
  match s with
  | EmptyString => EmptyString
  | String c s' =>
      if (c =? "%")%char then String "%" (String "%" (escape_percent s'))
      else String c (escape_percent s')
  end.

(** The specifiers whose branch of [printFormat] pulls an argument; the
    branches of 'S' and 'I' exist only without [ESP8266]. *)
Definition takes_argument {platform : Platform} (c : ascii) : bool :=
  existsb (Ascii.eqb c)
    ["s"; "P"; "d"; "i"; "D"; "F"; "x"; "X"; "b"; "B"; "l"; "u"; "c"; "t"; "T"]%char
  || (negb ESP8266 && existsb (Ascii.eqb c) ["S"; "I"]%char).

(** The text [printFormat] builds in [char s[16]] for an address. *)
Definition dotted_quad (ip0 ip1 ip2 ip3 : byte) : string :=
  sprintf_d ip0 +:+ "." +:+ sprintf_d ip1 +:+ "."
  +:+ sprintf_d ip2 +:+ "." +:+ sprintf_d ip3.

(** ** Configuration *)

(** C4: [setLevel] stores its argument clamped into [SILENT, VERBOSE] and
    always returns a logger: [setLevel(-5)] leaves the same logger as
    [setLevel(SILENT)], [setLevel(99)] the same as [setLevel(VERBOSE)], and
    [begin] clamps its level argument in the same way. *)
Theorem setLevel_clamps (v : Z) (this : Logging) :
  getLevel (setLevel v this) = Z.max LOG_LEVEL_SILENT (Z.min v LOG_LEVEL_VERBOSE)
  ∧ LOG_LEVEL_SILENT ≤ getLevel (setLevel v this) ≤ LOG_LEVEL_VERBOSE
  ∧ setLevel v this = setLevel (getLevel (setLevel v this)) this
  ∧ setLevel (-5) this = setLevel LOG_LEVEL_SILENT this
  ∧ setLevel 99 this = setLevel LOG_LEVEL_VERBOSE this
  ∧ (∀ out b, getLevel (begin v out b this) = getLevel (setLevel v this))
  ∧ (∀ out b, begin (-5) out b this = begin LOG_LEVEL_SILENT out b this)
  ∧ (∀ out b, begin 99 out b this = begin LOG_LEVEL_VERBOSE out b this).
Proof.
  assert (Hc : constrain v LOG_LEVEL_SILENT LOG_LEVEL_VERBOSE
               = Z.max LOG_LEVEL_SILENT (Z.min v LOG_LEVEL_VERBOSE)).
  { unfold constrain, LOG_LEVEL_SILENT, LOG_LEVEL_VERBOSE.
    destruct (Z.ltb_spec v 0); [lia|].
    destruct (Z.gtb_spec v 6); lia. }
  repeat split; try reflexivity.
  - exact Hc.
  - unfold getLevel; simpl. rewrite Hc.
    unfold LOG_LEVEL_SILENT, LOG_LEVEL_VERBOSE. lia.
  - unfold getLevel; simpl. rewrite Hc.
    unfold LOG_LEVEL_SILENT, LOG_LEVEL_VERBOSE. lia.
  - unfold setLevel, getLevel; simpl. f_equal. rewrite Hc.
    unfold constrain, LOG_LEVEL_SILENT, LOG_LEVEL_VERBOSE.
    destruct (Z.ltb_spec (0 `max` (v `min` 6)) 0); [lia|].
    destruct (Z.gtb_spec (0 `max` (v `min` 6)) 6); lia.
Qed.

(** C9: after [setLevel v] with [v] between SILENT and VERBOSE, [getLevel]
    returns [v]; after [setShowLevel b], [getShowLevel] returns [b]. *)
Theorem getters_roundtrip (v : Z) (b : bool) (this : Logging) :
  (LOG_LEVEL_SILENT ≤ v ≤ LOG_LEVEL_VERBOSE → getLevel (setLevel v this) = v)
  ∧ getShowLevel (setShowLevel b this) = b.
Proof.
  split; [|reflexivity].
  unfold LOG_LEVEL_SILENT, LOG_LEVEL_VERBOSE. intros Hv.
  unfold getLevel, setLevel, constrain, LOG_LEVEL_SILENT, LOG_LEVEL_VERBOSE.
  simpl. destruct (Z.ltb_spec v 0); [lia|].
  destruct (Z.gtb_spec v 6); lia.
Qed.

Lemma getters_roundtrip_witness :
  getLevel (setLevel 4 Logging_new) = 4
  ∧ getShowLevel (setShowLevel false Logging_new) = false.
Proof.
  destruct (getters_roundtrip 4 false Logging_new) as [Hl Hs].
  split; [apply Hl; unfold LOG_LEVEL_SILENT, LOG_LEVEL_VERBOSE; lia | exact Hs].
Defined.

(** ** The level gate *)

Lemma printLevel_gated {platform : Platform} (this : Logging) (level : Z) (msg : format_t)
    (args : va_list) (h : heap) :
  _level this < level → printLevel this level msg args h = Some h.
Proof.
  intros Hlt. unfold printLevel.
  destruct (Z.gtb_spec level (_level this)); [reflexivity | lia].
Qed.

Lemma entry_point_printLevel {platform : Platform} (s : severity) (this : Logging) :
  entry_point s this = printLevel this (level_of s).
Proof. destruct s; reflexivity. Qed.

(** C2: a leveled entry point whose severity is above the threshold returns
    with every sink unchanged, whatever the sink pointer is and whatever the
    two hooks are: a hook that writes or faults would show in the result, so
    neither is called. *)
Theorem gated_call_no_effect {platform : Platform} (s : severity) (this : Logging)
    (pre suf : option printfunction) (msg : format_t) (args : va_list)
    (h : heap) :
  _level this < level_of s →
  entry_point s (setSuffix suf (setPrefix pre this)) msg args h = Some h.
Proof.
  intros Hlt. rewrite entry_point_printLevel.
  apply printLevel_gated. exact Hlt.
Qed.

Lemma gated_call_no_effect_witness :
  notice (platform := avr)
    (setSuffix (Some faulting_hook)
       (setPrefix (Some faulting_hook)
          (begin LOG_LEVEL_WARNING (Some 0%nat) true Logging_new)))
    (ram (c_str "n=%d")) [va_int 7] {[ 0%nat := "log" ]}
  = Some {[ 0%nat := "log" ]}.
Proof.
  apply (gated_call_no_effect (platform := avr) NOTICE
           (begin LOG_LEVEL_WARNING (Some 0%nat) true Logging_new)
           (Some faulting_hook) (Some faulting_hook)
           (ram (c_str "n=%d")) [va_int 7] {[ 0%nat := "log" ]}).
  vm_compute. reflexivity.
Defined.

Lemma configured_keeps_level (ops : list config_op) (this : Logging) :
  existsb sets_level ops = false →
  _level (fold_left configure ops this) = _level this.
Proof.
  revert this. induction ops as [|op ops IH]; intros this Hops; [reflexivity|].
  simpl in Hops. apply orb_false_elim in Hops as [Hop Hops].
  simpl. rewrite (IH _ Hops). destruct op; try discriminate Hop; reflexivity.
Qed.

Lemma configured_keeps_sink (ops : list config_op) (this : Logging) :
  existsb sets_sink ops = false →
  _logOutput (fold_left configure ops this) = _logOutput this.
Proof.
  revert this. induction ops as [|op ops IH]; intros this Hops; [reflexivity|].
  simpl in Hops. apply orb_false_elim in Hops as [Hop Hops].
  simpl. rewrite (IH _ Hops). destruct op; try discriminate Hop; reflexivity.
Qed.

(** C10, as the code has it: a default-constructed logger has threshold
    SILENT, show-level true, a null sink and no hooks; as long as neither
    [begin] nor [setLevel] has been called, whatever other configuration
    calls were made, the threshold is still SILENT and every leveled entry
    point returns with all sinks unchanged and without calling a hook, so
    the sink pointer, which is still null when neither [begin] nor
    [setOutput] has been called, is not used. *)
Theorem default_logger_is_silent {platform : Platform} :
  getLevel Logging_new = LOG_LEVEL_SILENT
  ∧ getShowLevel Logging_new = true
  ∧ _logOutput Logging_new = None
  ∧ _prefix Logging_new = None
  ∧ _suffix Logging_new = None
  ∧ (∀ s msg args h, entry_point s Logging_new msg args h = Some h)
  ∧ (∀ ops, existsb sets_level ops = false →
       getLevel (configured ops) = LOG_LEVEL_SILENT
       ∧ ∀ s msg args h, entry_point s (configured ops) msg args h = Some h)
  ∧ (∀ ops, existsb sets_sink ops = false → _logOutput (configured ops) = None).
Proof.
  split; [reflexivity|]. split; [reflexivity|]. split; [reflexivity|].
  split; [reflexivity|]. split; [reflexivity|]. split; [|split].
  - intros s msg args h. rewrite entry_point_printLevel.
    apply printLevel_gated. destruct s; vm_compute; reflexivity.
  - intros ops Hops.
    pose proof (configured_keeps_level ops Logging_new Hops) as Hlevel.
    split; [exact Hlevel|].
    intros s msg args h. rewrite entry_point_printLevel.
    apply printLevel_gated. unfold configured. rewrite Hlevel.
    destruct s; vm_compute; reflexivity.
  - intros ops Hops. exact (configured_keeps_sink ops Logging_new Hops).
Qed.

Lemma default_logger_is_silent_witness :
  (getLevel
     (configured [op_setPrefix (Some faulting_hook); op_setShowLevel false;
                  op_setSuffix (Some faulting_hook)])
   = LOG_LEVEL_SILENT
   ∧ ∀ s msg args h,
       entry_point (platform := avr) s
         (configured [op_setPrefix (Some faulting_hook); op_setShowLevel false;
                      op_setSuffix (Some faulting_hook)]) msg args h
       = Some h)
  ∧ _logOutput
      (configured [op_setPrefix (Some faulting_hook); op_setShowLevel false;
                   op_setSuffix (Some faulting_hook)])
    = None.
Proof.
  destruct (default_logger_is_silent (platform := avr))
    as (_ & _ & _ & _ & _ & _ & Hlevel & Hsink).
  split.
  - exact (Hlevel [op_setPrefix (Some faulting_hook); op_setShowLevel false;
                   op_setSuffix (Some faulting_hook)] eq_refl).
  - exact (Hsink [op_setPrefix (Some faulting_hook); op_setShowLevel false;
                  op_setSuffix (Some faulting_hook)] eq_refl).
Defined.

(** C10, as the claim words it, fails: with neither [begin] nor [setOutput]
    called, [setLevel] raises the threshold while the sink is still null,
    and [verbose] then uses the null pointer. *)
Lemma default_logger_counterexample :
  existsb sets_sink [op_setLevel LOG_LEVEL_VERBOSE] = false
  ∧ _logOutput (configured [op_setLevel LOG_LEVEL_VERBOSE]) = None
  ∧ verbose (platform := avr) (configured [op_setLevel LOG_LEVEL_VERBOSE])
      (ram (c_str "x")) [] ∅
    = None
  ∧ ¬ (∀ ops, existsb sets_sink ops = false →
         ∀ s msg args h,
           entry_point (platform := avr) s (configured ops) msg args h
           = Some h).
Proof.
  split; [reflexivity|]. split; [reflexivity|]. split; [reflexivity|].
  intros Hclaim.
  pose proof (Hclaim [op_setLevel LOG_LEVEL_VERBOSE] eq_refl VERBOSE
                (ram (c_str "x")) [] ∅) as Hrun.
  discriminate Hrun.
Qed.

(** ** The format interpreter *)

Lemma recognized_neq (c x : ascii) : c ∉ recognized → x ∈ recognized → (c =? x)%char = false.
Proof.
  intros Hc Hx. destruct (Ascii.eqb_spec c x) as [->|]; [contradiction | reflexivity].
Qed.

Lemma printFormat_unrecognized {platform : Platform} (this : Logging)
    (c : ascii) (args : va_list) (h : heap) :
  c ∉ recognized → printFormat this c args h = Some (args, h).
Proof.
  intros Hc. unfold printFormat.
  rewrite !(recognized_neq c) by (assumption || (unfold recognized; repeat constructor)).
  rewrite !andb_false_r. reflexivity.
Qed.

(** C7: a specifier character outside the recognized ones makes
    [printFormat] return with the argument list and every sink as they were,
    whatever the sink pointer, and both scanners go on with the characters
    after it: scanning ["%"; c] followed by [rest] is scanning [rest]. *)
Theorem unrecognized_specifier_skipped {platform : Platform} (c : ascii) :
  c ∉ recognized →
  ∀ (this : Logging) (rest : string) (args : va_list) (h : heap),
    printFormat this c args h = Some (args, h)
    ∧ print this (String "%" (String c rest)) args h = print this rest args h
    ∧ print_P this (String "%" (String c rest)) args h
      = print_P this rest args h.
Proof.
  intros Hc this rest args h.
  pose proof (printFormat_unrecognized this c args h Hc) as Hpf.
  split; [exact Hpf|]. split.
  - cbn [print]. change ("%" =? NUL)%char with false.
    change ("%" =? "%")%char with true. cbn match. rewrite Hpf. reflexivity.
  - unfold print_P. cbn [print_P_loop]. change ("%" =? NUL)%char with false.
    change ("%" =? "%")%char with true. cbn match. rewrite Hpf.
    destruct rest; reflexivity.
Qed.

Lemma unrecognized_specifier_skipped_witness :
  print (platform := avr) (setOutput (Some 0%nat) Logging_new)
    (c_str "a%qb") [va_int 1] {[ 0%nat := "" ]}
  = print (platform := avr) (setOutput (Some 0%nat) Logging_new)
      (c_str "ab") [va_int 1] {[ 0%nat := "" ]}.
Proof.
  pose proof (unrecognized_specifier_skipped (platform := avr) "q") as Hq.
  assert (Hc : "q"%char ∉ recognized).
  { intros Hin. apply list_elem_of_In in Hin. vm_compute in Hin.
    repeat (destruct Hin as [Hin|Hin]; [discriminate Hin|]). exact Hin. }
  destruct (Hq Hc (setOutput (Some 0%nat) Logging_new) (c_str "b") [va_int 1]
              {[ 0%nat := "a" ]}) as (_ & Hram & _).
  change (c_str "a%qb") with (String "a" (String "%" (String "q" (c_str "b")))).
  change (c_str "ab") with (String "a" (c_str "b")).
  cbn [print]. change ("a" =? NUL)%char with false.
  change ("a" =? "%")%char with false. cbn match.
  change (Print.print_char (_logOutput (setOutput (Some 0%nat) Logging_new)) "a"
            {[ 0%nat := "" ]}) with (Some ({[ 0%nat := "a" ]} : gmap nat string)).
  exact Hram.
Defined.

Lemma write_valid (a : nat) (s o : string) (h : gmap nat string) :
  h !! a = Some o → Print.write (Some a) s h = Some (<[a := o +:+ s]> h).
Proof. intros Ho. unfold Print.write. simpl. rewrite Ho. reflexivity. Qed.

(** *** The two scanners *)

Lemma print_P_loop_print {platform : Platform} (this : Logging) (p : string) :
  (∀ c args h, print_P_loop this p c args h = print this (String c p) args h)
  ∧ (∀ c0 c args h,
       print_P_loop this (String c0 p) c args h
       = print this (String c (String c0 p)) args h).
Proof.
  induction p as [|c1 p [IH1 IH2]].
  - assert (Hnil : ∀ c args h,
              print_P_loop this "" c args h = print this (String c "") args h).
    { intros c args h. cbn [print print_P_loop].
      destruct (c =? NUL)%char; [reflexivity|].
      destruct (c =? "%")%char; [reflexivity|].
      destruct (Print.print_char (_logOutput this) c h); reflexivity. }
    split; [exact Hnil|].
    intros c0 c args h. cbn [print_P_loop].
    change (print this (String c (String c0 "")) args h)
      with (if (c =? NUL)%char then Some h
            else if (c =? "%")%char
                 then '(args, h) ← printFormat this c0 args h; print this "" args h
                 else h ← Print.print_char (_logOutput this) c h;
                      print this (String c0 "") args h).
    destruct (c =? NUL)%char; [reflexivity|].
    destruct (c =? "%")%char.
    + destruct (printFormat this c0 args h) as [[args' h']|]; reflexivity.
    + destruct (Print.print_char (_logOutput this) c h) as [h'|];
        [apply Hnil | reflexivity].
  - split; [exact (IH2 c1)|].
    intros c0 c args h. cbn [print_P_loop].
    change (print this (String c (String c0 (String c1 p))) args h)
      with (if (c =? NUL)%char then Some h
            else if (c =? "%")%char
                 then '(args, h) ← printFormat this c0 args h;
                      print this (String c1 p) args h
                 else h ← Print.print_char (_logOutput this) c h;
                      print this (String c0 (String c1 p)) args h).
    destruct (c =? NUL)%char; [reflexivity|].
    destruct (c =? "%")%char.
    + destruct (printFormat this c0 args h) as [[args' h']|];
        [apply IH1 | reflexivity].
    + destruct (Print.print_char (_logOutput this) c h) as [h'|];
        [apply IH2 | reflexivity].
Qed.

Lemma print_P_print {platform : Platform} (this : Logging) (format : string)
    (args : va_list) (h : heap) :
  print_P this format args h = print this format args h.
Proof.
  destruct format as [|c p]; [reflexivity|].
  apply (proj1 (print_P_loop_print this p)).
Qed.

(** C8: the scanner over a format string in program memory and the scanner
    over one in normal memory are the same function of the characters, the
    arguments and the sinks, also when the result is undefined, and so a
    leveled call gives the same result through either. *)
Theorem print_paths_agree {platform : Platform} (this : Logging)
    (format : string) (args : va_list) (h : heap) :
  print_P this format args h = print this format args h
  ∧ (∀ level, printLevel this level (flash format) args h
              = printLevel this level (ram format) args h)
  ∧ (∀ s, entry_point s this (flash format) args h
          = entry_point s this (ram format) args h).
Proof.
  assert (Hlevel : ∀ level, printLevel this level (flash format) args h
                            = printLevel this level (ram format) args h).
  { intros level. unfold printLevel.
    destruct (level >? _level this); [reflexivity|].
    destruct (match _prefix this with
              | Some f => f (_logOutput this) h | None => Some h end)
      as [h1|]; [|reflexivity]. cbn [mbind option_bind].
    destruct (if _showLevel this then _ else _) as [h2|]; [|reflexivity].
    cbn [mbind option_bind print_msg]. rewrite print_P_print. reflexivity. }
  split; [apply print_P_print|]. split; [exact Hlevel|].
  intros s. rewrite !entry_point_printLevel. apply Hlevel.
Qed.

(** *** The interpreter only appends to its sink *)

Lemma string_app_assoc (s1 s2 s3 : string) :
  (s1 +:+ s2) +:+ s3 = s1 +:+ (s2 +:+ s3).
Proof.
  induction s1 as [|c s1 IH]; [reflexivity|].
  change (String c ((s1 +:+ s2) +:+ s3) = String c (s1 +:+ (s2 +:+ s3))).
  rewrite IH. reflexivity.
Qed.

Lemma string_app_nil_r (s : string) : s +:+ "" = s.
Proof.
  induction s as [|c s IH]; [reflexivity|].
  change (String c (s +:+ "") = String c s). rewrite IH. reflexivity.
Qed.

Lemma string_app_length (s1 s2 : string) :
  String.length (s1 +:+ s2) = (String.length s1 + String.length s2)%nat.
Proof.
  induction s1 as [|c s1 IH]; [reflexivity|].
  change (S (String.length (s1 +:+ s2))
          = S (String.length s1 + String.length s2)).
  rewrite IH. reflexivity.
Qed.

Lemma same_text_refl (a a' : nat) (h h' : gmap nat string) (o o' : string) :
  h !! a = Some o → h' !! a' = Some o' → same_text a a' h h' o o' h h'.
Proof.
  intros Ho Ho'. exists "". rewrite !string_app_nil_r.
  rewrite !insert_id by assumption. split; reflexivity.
Qed.

Lemma same_text_write (a a' : nat) (h h' : gmap nat string) (o o' s : string) :
  same_text a a' h h' o o' (<[a := o +:+ s]> h) (<[a' := o' +:+ s]> h').
Proof. exists s. split; reflexivity. Qed.

Lemma same_text_trans (a a' : nat) (h h' : gmap nat string)
    (o o' w : string) (h1 h2 : gmap nat string) :
  same_text a a' (<[a := o +:+ w]> h) (<[a' := o' +:+ w]> h')
    (o +:+ w) (o' +:+ w) h1 h2 →
  same_text a a' h h' o o' h1 h2.
Proof.
  intros (w2 & -> & ->). exists (w +:+ w2).
  rewrite !insert_insert_eq, !string_app_assoc. split; reflexivity.
Qed.

Section Simulation.
Context {platform : Platform}.
Variables (this this' : Logging) (a a' : nat).
Hypothesis Hout : _logOutput this = Some a.
Hypothesis Hout' : _logOutput this' = Some a'.

Lemma printFormat_sim (c : ascii) (args : va_list) (h h' : heap) (o o' : string) :
  h !! a = Some o → h' !! a' = Some o' →
  sim_result (λ x x', x.1 = x'.1 ∧ same_text a a' h h' o o' x.2 x'.2)
    (printFormat this c args h) (printFormat this' c args h').
Proof.
  intros Ho Ho'. unfold printFormat. rewrite Hout, Hout'.
  unfold Print.print_char, Print.print_str, Print.print_long,
    Print.print_ulong, Print.print_double.
  repeat match goal with
         | |- context [if ?b then _ else _] =>
             lazymatch b with
             | (_ =? _)%Z => fail
             | _ => destruct b
             end
         end;
    rewrite ?(write_valid a _ o h Ho), ?(write_valid a' _ o' h' Ho'); simpl;
    try (destruct args as [|[] args]; simpl; try exact I);
    repeat match goal with
           | |- context [if (?n =? 1)%Z then _ else _] => destruct (n =? 1)%Z
           end;
    rewrite ?(write_valid a _ o h Ho), ?(write_valid a' _ o' h' Ho'),
      ?(write_valid a _ _ _ (lookup_insert_eq h a _)),
      ?(write_valid a' _ _ _ (lookup_insert_eq h' a' _)); simpl;
    (split; [reflexivity|]);
    first [ apply same_text_write
          | apply same_text_refl; assumption
          | apply same_text_trans with (w := "0x"); apply same_text_write
          | apply same_text_trans with (w := "0b"); apply same_text_write ].
Qed.

Lemma print_sim (format : string) :
  ∀ (args : va_list) (h h' : heap) (o o' : string),
    h !! a = Some o → h' !! a' = Some o' →
    sim_result (same_text a a' h h' o o')
      (print this format args h) (print this' format args h').
Proof.
  remember (String.length format) as n eqn:Hn. revert format Hn.
  induction (lt_wf n) as [n _ IH]. intros format -> args h h' o o' Ho Ho'.
  destruct format as [|c format1]; [exact I|].
  cbn [print]. destruct (c =? NUL)%char.
  { apply same_text_refl; assumption. }
  destruct (c =? "%")%char.
  - destruct format1 as [|c1 format2]; [exact I|].
    pose proof (printFormat_sim c1 args h h' o o' Ho Ho') as Hpf.
    destruct (printFormat this c1 args h) as [[args1 h1]|],
      (printFormat this' c1 args h') as [[args2 h2]|];
      simpl in Hpf |- *; try contradiction; [|exact I].
    destruct Hpf as (-> & w & -> & ->).
    pose proof (IH (String.length format2) ltac:(simpl; lia) format2 eq_refl
                  args2 _ _ _ _ (lookup_insert_eq h a (o +:+ w))
                  (lookup_insert_eq h' a' (o' +:+ w))) as Hrec.
    destruct (print this format2 args2 _), (print this' format2 args2 _);
      simpl in Hrec |- *; try contradiction; [|exact I].
    apply same_text_trans with (w := w). exact Hrec.
  - unfold Print.print_char. rewrite Hout, Hout'.
    rewrite (write_valid a _ o h Ho), (write_valid a' _ o' h' Ho'). simpl.
    pose proof (IH (String.length format1) ltac:(simpl; lia) format1 eq_refl
                  args _ _ _ _ (lookup_insert_eq h a (o +:+ String c ""))
                  (lookup_insert_eq h' a' (o' +:+ String c ""))) as Hrec.
    destruct (print this format1 args _), (print this' format1 args _);
      simpl in Hrec |- *; try contradiction; [|exact I].
    apply same_text_trans with (w := String c ""). exact Hrec.
Qed.

End Simulation.

(** On a live sink the interpreter appends the formatted body and changes
    nothing else. *)
Lemma print_msg_appends {platform : Platform} (this : Logging) (a : nat)
    (msg : format_t) (args : va_list) (h : heap) (o body : string) :
  _logOutput this = Some a → h !! a = Some o →
  formatted msg args = Some body →
  print_msg this msg args h = Some (<[a := o +:+ body]> h).
Proof.
  intros Hout Ho Hbody. unfold formatted in Hbody.
  assert (Hsim : sim_result (same_text a 0%nat h {[ 0%nat := "" ]} o "")
                   (print_msg this msg args h)
                   (print_msg probe msg args {[ 0%nat := "" ]})).
  { destruct msg as [format|format]; cbn [print_msg];
      rewrite ?print_P_print;
      apply (print_sim this probe a 0%nat Hout eq_refl format);
      [assumption | apply lookup_singleton_eq | assumption
      | apply lookup_singleton_eq]. }
  destruct (print_msg probe msg args {[ 0%nat := "" ]}) as [h2|];
    [|discriminate Hbody].
  destruct (print_msg this msg args h) as [h1|]; [|contradiction].
  destruct Hsim as (w & -> & ->). simpl in Hbody.
  rewrite lookup_insert_eq in Hbody.
  change ("" +:+ w) with w in Hbody. congruence.
Qed.

(** *** Emitted messages *)

Lemma hook_step (a : nat) (f : option printfunction) (w o : string)
    (h : gmap nat string) :
  hook_writes a f w → h !! a = Some o →
  match f with Some f => f (Some a) h | None => Some h end
  = Some (<[a := o +:+ w]> h).
Proof.
  intros Hf Ho. destruct f as [f|]; simpl in Hf.
  - apply Hf. exact Ho.
  - subst w. rewrite string_app_nil_r, insert_id by exact Ho. reflexivity.
Qed.

Lemma subscript_levels (s : severity) :
  subscript levels (level_of s - 1) = Some (letter s).
Proof. destruct s; reflexivity. Qed.

Lemma entry_point_emits {platform : Platform} (s : severity) (this : Logging)
    (a : nat) (msg : format_t) (args : va_list) (h : heap)
    (o pre suf body : string) :
  _logOutput this = Some a → h !! a = Some o →
  level_of s ≤ _level this →
  hook_writes a (_prefix this) pre → hook_writes a (_suffix this) suf →
  formatted msg args = Some body →
  entry_point s this msg args h
  = Some (<[a := o +:+ pre +:+ indicator (_showLevel this) s +:+ body +:+ suf]> h).
Proof.
  intros Hout Ho Hle Hpre Hsuf Hbody.
  rewrite entry_point_printLevel. unfold printLevel.
  destruct (Z.gtb_spec (level_of s) (_level this)) as [Hgt|_]; [lia|].
  rewrite Hout, (hook_step a _ pre o h Hpre Ho). cbn [mbind option_bind].
  assert (Hind : (if _showLevel this
                  then c ← subscript levels (level_of s - 1);
                       h1 ← Print.print_char (Some a) c (<[a := o +:+ pre]> h);
                       Print.print_str (Some a) ": " h1
                  else Some (<[a := o +:+ pre]> h))
                 = Some (<[a := (o +:+ pre) +:+ indicator (_showLevel this) s]> h)).
  { unfold indicator. destruct (_showLevel this).
    - rewrite subscript_levels. unfold Print.print_char, Print.print_str.
      simpl. rewrite (write_valid a _ _ _ (lookup_insert_eq h a _)). simpl.
      rewrite (write_valid a _ _ _ (lookup_insert_eq _ a _)).
      rewrite !insert_insert_eq, string_app_assoc. reflexivity.
    - rewrite string_app_nil_r. reflexivity. }
  rewrite Hind. cbn [mbind option_bind].
  rewrite (print_msg_appends this a msg args _ _ body Hout
             (lookup_insert_eq h a _) Hbody). cbn [mbind option_bind].
  rewrite (hook_step a _ suf _ _ Hsuf (lookup_insert_eq _ a _)).
  rewrite !insert_insert_eq, !string_app_assoc. reflexivity.
Qed.

Lemma writing_hook_writes (a : nat) (w : string) :
  hook_writes a (Some (writing_hook w)) w.
Proof. intros h o Ho. apply write_valid. exact Ho. Qed.

(** C3: an emitted message reaches the sink as the prefix hook's output,
    then, when show-level is on, the severity letter and ": ", then the
    formatted body, then the suffix hook's output, after what the sink had
    received; [verbose] with "val=%d" and 42 at threshold VERBOSE writes
    "V: val=42" with show-level on and "val=42" with it off. *)
Theorem emitted_message_layout {platform : Platform} (s : severity)
    (this : Logging) (a : nat) (msg : format_t) (args : va_list) (h : heap)
    (o pre suf body : string) :
  (_logOutput this = Some a → h !! a = Some o →
   level_of s ≤ _level this →
   hook_writes a (_prefix this) pre → hook_writes a (_suffix this) suf →
   formatted msg args = Some body →
   entry_point s this msg args h
   = Some (<[a := o +:+ pre +:+ indicator (_showLevel this) s +:+ body +:+ suf]> h))
  ∧ [letter FATAL; letter ERROR; letter WARNING; letter NOTICE; letter TRACE;
     letter VERBOSE] = ["F"; "E"; "W"; "N"; "T"; "V"]%char
  ∧ (h !! a = Some o →
     ∀ mk, mk = ram ∨ mk = flash →
       verbose (begin LOG_LEVEL_VERBOSE (Some a) true Logging_new)
         (mk (c_str "val=%d")) [va_int 42] h
       = Some (<[a := o +:+ "V: val=42"]> h)
       ∧ verbose (begin LOG_LEVEL_VERBOSE (Some a) false Logging_new)
           (mk (c_str "val=%d")) [va_int 42] h
         = Some (<[a := o +:+ "val=42"]> h)).
Proof.
  split; [apply entry_point_emits|]. split; [reflexivity|].
  intros Ho mk Hmk.
  assert (Hbody : formatted (mk (c_str "val=%d")) [va_int 42] = Some "val=42").
  { destruct Hmk as [-> | ->]; destruct platform as [[] ? ?];
      vm_compute; reflexivity. }
  split.
  - exact (entry_point_emits VERBOSE
             (begin LOG_LEVEL_VERBOSE (Some a) true Logging_new) a _ _ h o "" ""
             "val=42" eq_refl Ho ltac:(vm_compute; discriminate) eq_refl eq_refl
             Hbody).
  - exact (entry_point_emits VERBOSE
             (begin LOG_LEVEL_VERBOSE (Some a) false Logging_new) a _ _ h o "" ""
             "val=42" eq_refl Ho ltac:(vm_compute; discriminate) eq_refl eq_refl
             Hbody).
Qed.

Lemma emitted_message_layout_witness :
  error (platform := avr)
    (setSuffix (Some (writing_hook ">"))
       (setPrefix (Some (writing_hook "<"))
          (begin LOG_LEVEL_WARNING (Some 0%nat) true Logging_new)))
    (ram (c_str "code %d")) [va_int 7] {[ 0%nat := "" ]}
  = Some (<[ 0%nat := "" +:+ "<" +:+ "E: " +:+ "code 7" +:+ ">" ]>
            {[ 0%nat := "" ]}).
Proof.
  apply (proj1 (emitted_message_layout (platform := avr) ERROR
                  (setSuffix (Some (writing_hook ">"))
                     (setPrefix (Some (writing_hook "<"))
                        (begin LOG_LEVEL_WARNING (Some 0%nat) true Logging_new)))
                  0%nat (ram (c_str "code %d")) [va_int 7] {[ 0%nat := "" ]}
                  "" "<" ">" "code 7")).
  - reflexivity.
  - vm_compute. reflexivity.
  - vm_compute. discriminate.
  - apply writing_hook_writes.
  - apply writing_hook_writes.
  - vm_compute. reflexivity.
Defined.

(** *** Integer and boolean specifiers *)

Lemma formatted_flag {platform : Platform} (mk : string → format_t) (n : Z) :
  mk = ram ∨ mk = flash → n ≠ 1 →
  formatted (mk (c_str "%t")) [va_int n] = Some "F"
  ∧ formatted (mk (c_str "%T")) [va_int n] = Some "false".
Proof.
  intros Hmk Hn. apply Z.eqb_neq in Hn.
  assert (Hram : formatted (ram (c_str "%t")) [va_int n] = Some "F"
                 ∧ formatted (ram (c_str "%T")) [va_int n] = Some "false").
  { unfold formatted. cbn [print_msg].
    change (c_str "%t") with (String "%" (String "t" (String NUL ""))).
    change (c_str "%T") with (String "%" (String "T" (String NUL ""))).
    cbn [print]. change ("%" =? NUL)%char with false.
    change ("%" =? "%")%char with true. cbn match.
    destruct platform as [[] ? ?]; unfold printFormat; simpl; rewrite Hn;
      unfold Print.print_str;
      rewrite !(write_valid 0%nat _ "" _ (lookup_singleton_eq 0%nat ""));
      split; reflexivity. }
  destruct Hmk as [-> | ->]; [exact Hram|].
  unfold formatted in *. cbn [print_msg] in *. rewrite !print_P_print.
  exact Hram.
Qed.

(** C5: on a live sink, through either scanner, "%x" with 255 writes "ff",
    "%X" with 255 writes "0xff", "%b" with 5 writes "101", "%B" with 5
    writes "0b101", "%t" writes "T" for 1 and "F" for any other value, and
    "%T" writes "true" for 1 and "false" for any other value. *)
Theorem integer_boolean_specifiers {platform : Platform} (this : Logging)
    (a : nat) (h : heap) (o : string) (mk : string → format_t) :
  _logOutput this = Some a → h !! a = Some o → mk = ram ∨ mk = flash →
  let run (fmt : string) (n : Z) := print_msg this (mk (c_str fmt)) [va_int n] h in
  let wrote (w : string) := Some (<[a := o +:+ w]> h) in
  run "%x" 255 = wrote "ff"
  ∧ run "%X" 255 = wrote "0xff"
  ∧ run "%b" 5 = wrote "101"
  ∧ run "%B" 5 = wrote "0b101"
  ∧ run "%t" 1 = wrote "T"
  ∧ run "%T" 1 = wrote "true"
  ∧ (∀ n, n ≠ 1 → run "%t" n = wrote "F" ∧ run "%T" n = wrote "false").
Proof.
  intros Hout Ho Hmk run wrote. subst run wrote. cbv beta.
  assert (Hc : ∀ fmt n w,
            formatted (mk (c_str fmt)) [va_int n] = Some w →
            print_msg this (mk (c_str fmt)) [va_int n] h
            = Some (<[a := o +:+ w]> h)).
  { intros fmt n w Hw. apply print_msg_appends; assumption. }
  repeat split;
    try (apply Hc; destruct Hmk as [-> | ->]; destruct platform as [[] ? ?];
         vm_compute; reflexivity).
  - apply Hc. apply formatted_flag; assumption.
  - apply Hc. apply formatted_flag; assumption.
Qed.

Lemma integer_boolean_specifiers_witness :
  print_msg (platform := avr) (setOutput (Some 0%nat) Logging_new)
    (ram (c_str "%X")) [va_int 255] {[ 0%nat := "" ]}
  = Some (<[ 0%nat := "" +:+ "0xff" ]> {[ 0%nat := "" ]})
  ∧ print_msg (platform := avr) (setOutput (Some 0%nat) Logging_new)
      (ram (c_str "%T")) [va_int 0] {[ 0%nat := "" ]}
    = Some (<[ 0%nat := "" +:+ "false" ]> {[ 0%nat := "" ]}).
Proof.
  pose proof (integer_boolean_specifiers (platform := avr)
                (setOutput (Some 0%nat) Logging_new) 0%nat {[ 0%nat := "" ]} ""
                ram eq_refl (lookup_singleton_eq 0%nat "") (or_introl eq_refl))
    as (_ & HX & _ & _ & _ & _ & Hflag).
  split; [exact HX|].
  exact (proj2 (Hflag 0 ltac:(discriminate))).
Defined.

(** ** Where the interpreter is undefined *)

(** With the threshold raised and the sink still null, a call uses the null
    pointer. *)
Example null_sink_faults :
  verbose (platform := avr) (setLevel LOG_LEVEL_VERBOSE Logging_new)
    (ram (c_str "x")) [] ∅ = None.
Proof. reflexivity. Qed.

(** A format that ends in '%' takes the terminator as the specifier and goes
    on reading after the array of the literal. *)
Example trailing_percent_overruns :
  print (platform := avr) probe (c_str "a%") [] {[ 0%nat := "" ]} = None
  ∧ print (platform := avr) probe ("a%" +:+ String NUL (c_str "b")) []
      {[ 0%nat := "" ]}
    = Some {[ 0%nat := "ab" ]}.
Proof. split; vm_compute; reflexivity. Qed.

(** ** Further properties of the configuration *)

Lemma constrain_range (v : Z) :
  LOG_LEVEL_SILENT ≤ constrain v LOG_LEVEL_SILENT LOG_LEVEL_VERBOSE
  ≤ LOG_LEVEL_VERBOSE.
Proof.
  unfold constrain, LOG_LEVEL_SILENT, LOG_LEVEL_VERBOSE.
  destruct (Z.ltb_spec v 0); [lia|]. destruct (Z.gtb_spec v 6); lia.
Qed.

Lemma configure_level_range (this : Logging) (op : config_op) :
  LOG_LEVEL_SILENT ≤ getLevel this ≤ LOG_LEVEL_VERBOSE →
  LOG_LEVEL_SILENT ≤ getLevel (configure this op) ≤ LOG_LEVEL_VERBOSE.
Proof.
  intros Hthis. destruct op; simpl; try exact Hthis; apply constrain_range.
Qed.

(** X1: whatever sequence of [begin], [setLevel], [setShowLevel],
    [setPrefix], [setSuffix] and [setOutput] calls follows the construction,
    the stored threshold lies between SILENT and VERBOSE. *)
Theorem threshold_always_in_range (ops : list config_op) :
  LOG_LEVEL_SILENT ≤ getLevel (configured ops) ≤ LOG_LEVEL_VERBOSE.
Proof.
  unfold configured.
  assert (Hgen : ∀ this,
            LOG_LEVEL_SILENT ≤ getLevel this ≤ LOG_LEVEL_VERBOSE →
            LOG_LEVEL_SILENT ≤ getLevel (fold_left configure ops this)
            ≤ LOG_LEVEL_VERBOSE).
  { induction ops as [|op ops IH]; intros this Hthis; [exact Hthis|].
    simpl. apply IH. apply configure_level_range. exact Hthis. }
  apply Hgen. unfold getLevel, LOG_LEVEL_SILENT, LOG_LEVEL_VERBOSE. simpl.
  unfold LOG_LEVEL_SILENT. lia.
Qed.

Lemma level_of_range (s : severity) :
  LOG_LEVEL_FATAL ≤ level_of s ≤ LOG_LEVEL_VERBOSE.
Proof. destruct s; vm_compute; split; discriminate. Qed.

(** X2: clamping never changes which severities pass the gate: after
    [setLevel v], for any integer [v], the entry point of severity [s] passes
    exactly when [level_of s <= v]; so every entry point passes once
    [v >= VERBOSE] and none does once [v <= SILENT]. *)
Theorem setLevel_enables (v : Z) (s : severity) (this : Logging) :
  (level_of s ≤ getLevel (setLevel v this) ↔ level_of s ≤ v)
  ∧ (∀ out b, level_of s ≤ getLevel (begin v out b this) ↔ level_of s ≤ v).
Proof.
  pose proof (level_of_range s) as Hs.
  assert (Hc : level_of s ≤ constrain v LOG_LEVEL_SILENT LOG_LEVEL_VERBOSE
               ↔ level_of s ≤ v).
  { revert Hs.
    unfold constrain, LOG_LEVEL_SILENT, LOG_LEVEL_FATAL, LOG_LEVEL_VERBOSE.
    destruct (Z.ltb_spec v 0); [lia|]. destruct (Z.gtb_spec v 6); lia. }
  split; [exact Hc|]. intros out b. exact Hc.
Qed.

(** ** Further properties of the interpreter *)

Lemma printFormat_percent {platform : Platform} (this : Logging) (a : nat)
    (o : string) (args : va_list) (h : heap) :
  _logOutput this = Some a → h !! a = Some o →
  printFormat this "%" args h = Some (args, <[a := o +:+ "%"]> h).
Proof.
  intros Hout Ho. unfold printFormat. change ("%" =? "%")%char with true.
  cbn match. unfold Print.print_char.
  rewrite Hout, (write_valid a _ o h Ho). reflexivity.
Qed.

Lemma plain_cons (c : ascii) (s : string) :
  plain (String c s) = true →
  (c =? NUL)%char = false ∧ (c =? "%")%char = false ∧ plain s = true.
Proof.
  simpl. destruct (c =? NUL)%char, (c =? "%")%char, (plain s);
    simpl; intros Hp; try discriminate Hp; repeat split.
Qed.

(** Plain text in front of a format is written as it is, and the scan goes
    on behind it. *)
Lemma print_plain_prefix {platform : Platform} (this : Logging) (a : nat)
    (lit rest : string) (args : va_list) :
  _logOutput this = Some a → plain lit = true →
  ∀ (h : heap) (o : string), h !! a = Some o →
    print this (lit +:+ rest) args h
    = print this rest args (<[a := o +:+ lit]> h).
Proof.
  intros Hout. induction lit as [|c lit IH]; intros Hplain h o Ho.
  - change ("" +:+ rest) with rest.
    rewrite string_app_nil_r, insert_id by exact Ho. reflexivity.
  - apply plain_cons in Hplain as (Hnul & Hpct & Hplain).
    change (String c lit +:+ rest) with (String c (lit +:+ rest)).
    cbn [print]. rewrite Hnul, Hpct. unfold Print.print_char.
    rewrite Hout, (write_valid a _ o h Ho). cbn [mbind option_bind].
    rewrite (IH Hplain _ _ (lookup_insert_eq h a _)).
    rewrite insert_insert_eq, string_app_assoc. reflexivity.
Qed.

(** Behind the same plain text, two formats that scan alike still scan
    alike, whatever the sink pointer is. *)
Lemma print_plain_cong {platform : Platform} (this : Logging)
    (lit rest1 rest2 : string) (args : va_list) :
  plain lit = true →
  (∀ h : heap, print this rest1 args h = print this rest2 args h) →
  ∀ h : heap, print this (lit +:+ rest1) args h
              = print this (lit +:+ rest2) args h.
Proof.
  intros Hplain Hrest. induction lit as [|c lit IH]; intros h.
  - exact (Hrest h).
  - apply plain_cons in Hplain as (Hnul & Hpct & Hplain).
    change (String c lit +:+ ?r) with (String c (lit +:+ r)).
    cbn [print]. rewrite Hnul, Hpct.
    destruct (Print.print_char (_logOutput this) c h) as [h1|];
      [exact (IH Hplain h1) | reflexivity].
Qed.

Lemma plain_no_nul (s : string) : plain s = true → no_nul s = true.
Proof.
  induction s as [|c s IH]; [reflexivity|]. intros Hp.
  apply plain_cons in Hp as (Hnul & _ & Hp). simpl.
  rewrite Hnul, (IH Hp). reflexivity.
Qed.

Lemma plain_escape (s : string) : plain s = true → escape_percent s = s.
Proof.
  induction s as [|c s IH]; [reflexivity|]. intros Hp.
  apply plain_cons in Hp as (_ & Hpct & Hp). simpl.
  rewrite Hpct, (IH Hp). reflexivity.
Qed.

Lemma print_escaped_text {platform : Platform} (this : Logging) (a : nat)
    (s : string) (args : va_list) :
  _logOutput this = Some a → no_nul s = true →
  ∀ (h : heap) (o : string), h !! a = Some o →
    print this (c_str (escape_percent s)) args h = Some (<[a := o +:+ s]> h).
Proof.
  intros Hout. induction s as [|c s IH]; intros Hs h o Ho.
  - change (c_str (escape_percent "")) with (String NUL "").
    cbn [print]. change (NUL =? NUL)%char with true. cbn match.
    rewrite string_app_nil_r, insert_id by exact Ho. reflexivity.
  - simpl in Hs. destruct (c =? NUL)%char eqn:Hnul; [discriminate Hs|].
    simpl in Hs. cbn [escape_percent].
    destruct (Ascii.eqb_spec c "%") as [->|Hpct].
    + change (c_str (String "%" (String "%" (escape_percent s))))
        with (String "%" (String "%" (c_str (escape_percent s)))).
      cbn [print]. change ("%" =? NUL)%char with false.
      change ("%" =? "%")%char with true. cbn match.
      rewrite (printFormat_percent this a o args h Hout Ho).
      cbn [mbind option_bind].
      rewrite (IH Hs _ _ (lookup_insert_eq h a _)).
      rewrite insert_insert_eq, string_app_assoc. reflexivity.
    + change (c_str (String c (escape_percent s)))
        with (String c (c_str (escape_percent s))).
      cbn [print]. rewrite Hnul.
      destruct (Ascii.eqb_spec c "%") as [?|_]; [contradiction|].
      unfold Print.print_char.
      rewrite Hout, (write_valid a _ o h Ho). cbn [mbind option_bind].
      rewrite (IH Hs _ _ (lookup_insert_eq h a _)).
      rewrite insert_insert_eq, string_app_assoc. reflexivity.
Qed.

(** X3: a text without terminator characters, with each '%' doubled and
    used as the format, is written to the sink character for character, by
    either scanner and with no argument pulled; a text that has no '%' is its
    own escaped form. *)
Theorem escaped_text_verbatim {platform : Platform} (this : Logging)
    (a : nat) (s : string) (args : va_list) (h : heap) (o : string) :
  _logOutput this = Some a → h !! a = Some o → no_nul s = true →
  print this (c_str (escape_percent s)) args h = Some (<[a := o +:+ s]> h)
  ∧ print_P this (c_str (escape_percent s)) args h = Some (<[a := o +:+ s]> h)
  ∧ (plain s = true → print this (c_str s) args h = Some (<[a := o +:+ s]> h)).
Proof.
  intros Hout Ho Hs.
  pose proof (print_escaped_text this a s args Hout Hs h o Ho) as Hram.
  split; [exact Hram|]. split; [rewrite print_P_print; exact Hram|].
  intros Hplain. rewrite <- (plain_escape s Hplain) at 1. exact Hram.
Qed.

Lemma escaped_text_verbatim_witness :
  print (platform := avr) probe (c_str (escape_percent "100% done")) [va_int 9]
    {[ 0%nat := ">" ]}
  = Some (<[ 0%nat := ">" +:+ "100% done" ]> {[ 0%nat := ">" ]}).
Proof.
  refine (proj1 (escaped_text_verbatim (platform := avr) probe 0%nat
                   "100% done" [va_int 9] {[ 0%nat := ">" ]} ">" _ _ _));
    vm_compute; reflexivity.
Defined.

(** X4: a format that ends in a lone '%' behind plain text is scanned
    past its terminator: on the array of the literal alone the result is
    undefined, and when more characters follow the terminator in memory they
    are scanned as if they were part of the format. *)
Theorem trailing_percent_reads_on {platform : Platform} (this : Logging)
    (lit rest : string) (args : va_list) (h : heap) :
  plain lit = true →
  print this (c_str (lit +:+ "%")) args h = None
  ∧ print this (lit +:+ String "%" (String NUL rest)) args h
    = print this (lit +:+ rest) args h.
Proof.
  intros Hplain. split.
  - unfold c_str. rewrite string_app_assoc.
    change ("%" +:+ String NUL "") with (String "%" (String NUL "")).
    revert h. induction lit as [|c lit IH]; intros h.
    + change ("" +:+ ?r) with r. cbn [print].
      change ("%" =? NUL)%char with false. change ("%" =? "%")%char with true.
      cbn match. destruct (printFormat this NUL args h) as [[args' h']|];
        reflexivity.
    + apply plain_cons in Hplain as (Hnul & Hpct & Hplain).
      change (String c lit +:+ ?r) with (String c (lit +:+ r)).
      cbn [print]. rewrite Hnul, Hpct.
      destruct (Print.print_char (_logOutput this) c h) as [h1|];
        [exact (IH Hplain h1) | reflexivity].
  - apply print_plain_cong; [exact Hplain|]. intros h0.
    cbn [print]. change ("%" =? NUL)%char with false.
    change ("%" =? "%")%char with true. cbn match.
    rewrite printFormat_unrecognized; [reflexivity|].
    intros Hin. apply list_elem_of_In in Hin. vm_compute in Hin.
    repeat (destruct Hin as [Hin|Hin]; [discriminate Hin|]). exact Hin.
Qed.

Lemma trailing_percent_reads_on_witness :
  print (platform := avr) probe (c_str ("load 50" +:+ "%")) [] {[ 0%nat := "" ]}
  = None.
Proof.
  refine (proj1 (trailing_percent_reads_on (platform := avr) probe "load 50"
                   "" [] {[ 0%nat := "" ]} _)).
  vm_compute. reflexivity.
Defined.

(** X5: once a call passes the gate with show-level on, a null sink pointer
    is used: the call is undefined, whatever the hooks, the format and the
    arguments are. *)
Theorem null_sink_call_undefined {platform : Platform} (s : severity)
    (this : Logging) (msg : format_t) (args : va_list) (h : heap) :
  _logOutput this = None → _showLevel this = true →
  level_of s ≤ _level this →
  entry_point s this msg args h = None.
Proof.
  intros Hout Hshow Hle. rewrite entry_point_printLevel. unfold printLevel.
  destruct (Z.gtb_spec (level_of s) (_level this)) as [Hgt|_]; [lia|].
  rewrite Hout, Hshow.
  destruct (match _prefix this with
            | Some f => f None h | None => Some h end) as [h1|];
    [|reflexivity].
  cbn [mbind option_bind]. rewrite subscript_levels. reflexivity.
Qed.

Lemma null_sink_call_undefined_witness :
  fatal (platform := avr) (setLevel LOG_LEVEL_FATAL Logging_new)
    (ram (c_str "halt")) [] ∅ = None.
Proof.
  refine (null_sink_call_undefined (platform := avr) FATAL
            (setLevel LOG_LEVEL_FATAL Logging_new) (ram (c_str "halt")) [] ∅
            _ _ _); vm_compute; try reflexivity; discriminate.
Defined.

Lemma print_msg_sim {platform : Platform} (this this' : Logging) (a a' : nat)
    (msg : format_t) (args : va_list) (h h' : heap) (o o' : string) :
  _logOutput this = Some a → _logOutput this' = Some a' →
  h !! a = Some o → h' !! a' = Some o' →
  sim_result (same_text a a' h h' o o')
    (print_msg this msg args h) (print_msg this' msg args h').
Proof.
  intros Hout Hout' Ho Ho'.
  destruct msg as [format|format]; cbn [print_msg]; rewrite ?print_P_print;
    apply (print_sim this this' a a' Hout Hout' format); assumption.
Qed.

Lemma print_msg_undefined {platform : Platform} (this : Logging) (a : nat)
    (msg : format_t) (args : va_list) (h : heap) (o : string) :
  _logOutput this = Some a → h !! a = Some o →
  formatted msg args = None → print_msg this msg args h = None.
Proof.
  intros Hout Ho Hbody. unfold formatted in Hbody.
  pose proof (print_msg_sim this probe a 0%nat msg args h {[ 0%nat := "" ]}
                o "" Hout eq_refl Ho (lookup_singleton_eq 0%nat ""))
    as Hsim.
  destruct (print_msg probe msg args {[ 0%nat := "" ]}) as [h2|].
  - destruct (print_msg this msg args h) as [h1|]; [|reflexivity].
    destruct Hsim as (w & _ & ->). cbn [mbind option_bind] in Hbody.
    rewrite lookup_insert_eq in Hbody. discriminate Hbody.
  - destruct (print_msg this msg args h); [contradiction | reflexivity].
Qed.

(** X6: on a live sink the interpreter appends a text that depends on the
    format and the arguments only, not on the logger, on the address of the
    sink or on what the sink received before, and it is undefined on one
    live sink exactly when it is on every other. *)
Theorem interpreter_appends_body {platform : Platform} (this : Logging)
    (a : nat) (msg : format_t) (args : va_list) (h : heap) (o : string) :
  _logOutput this = Some a → h !! a = Some o →
  print_msg this msg args h
  = body ← formatted msg args; Some (<[a := o +:+ body]> h).
Proof.
  intros Hout Ho.
  destruct (formatted msg args) as [body|] eqn:Hbody; cbn [mbind option_bind].
  - apply print_msg_appends; assumption.
  - apply (print_msg_undefined this a msg args h o); assumption.
Qed.

Lemma interpreter_appends_body_witness :
  print_msg (platform := avr) (setOutput (Some 3%nat) Logging_new)
    (flash (c_str "t=%d")) [va_int (-4)] {[ 3%nat := "log:" ]}
  = body ← formatted (platform := avr) (flash (c_str "t=%d")) [va_int (-4)];
    Some (<[ 3%nat := "log:" +:+ body ]> {[ 3%nat := "log:" ]}).
Proof.
  refine (interpreter_appends_body (platform := avr)
            (setOutput (Some 3%nat) Logging_new) 3%nat (flash (c_str "t=%d"))
            [va_int (-4)] {[ 3%nat := "log:" ]} "log:" _ _);
    vm_compute; reflexivity.
Defined.

(** X7: a leveled call on a live sink, with hooks that only write (or no
    hooks), never erases what the sink had received and never touches
    another sink: when it returns, the sink holds its former contents
    followed by some text and every other sink is as it was. *)
Theorem call_only_appends {platform : Platform} (s : severity)
    (this : Logging) (a : nat) (msg : format_t) (args : va_list)
    (h h' : heap) (o pre suf : string) :
  _logOutput this = Some a → h !! a = Some o →
  hook_writes a (_prefix this) pre → hook_writes a (_suffix this) suf →
  entry_point s this msg args h = Some h' →
  (∃ w, h' !! a = Some (o +:+ w)) ∧ (∀ b, b ≠ a → h' !! b = h !! b).
Proof.
  intros Hout Ho Hpre Hsuf Hrun.
  assert (Hw : ∃ w, h' = <[a := o +:+ w]> h).
  { destruct (Z.le_gt_cases (level_of s) (_level this)) as [Hle|Hgt].
    - destruct (formatted msg args) as [body|] eqn:Hbody.
      + rewrite (entry_point_emits s this a msg args h o pre suf body
                   Hout Ho Hle Hpre Hsuf Hbody) in Hrun.
        injection Hrun as <-. eexists. reflexivity.
      + exfalso. rewrite entry_point_printLevel in Hrun.
        unfold printLevel in Hrun.
        destruct (Z.gtb_spec (level_of s) (_level this)) as [Hgt|_]; [lia|].
        rewrite Hout, (hook_step a _ pre o h Hpre Ho) in Hrun.
        cbn [mbind option_bind] in Hrun.
        destruct (if _showLevel this then _ else _) as [h2|] eqn:Hind
          in Hrun; [|discriminate Hrun].
        cbn [mbind option_bind] in Hrun.
        assert (Hh2 : ∃ o2, h2 !! a = Some o2).
        { destruct (_showLevel this).
          - rewrite subscript_levels in Hind. cbn [mbind option_bind] in Hind.
            unfold Print.print_char, Print.print_str in Hind.
            rewrite (write_valid a _ _ _ (lookup_insert_eq h a _)) in Hind.
            cbn [mbind option_bind] in Hind.
            rewrite (write_valid a _ _ _ (lookup_insert_eq _ a _)) in Hind.
            injection Hind as <-. eexists. apply lookup_insert_eq.
          - injection Hind as <-. eexists. apply lookup_insert_eq. }
        destruct Hh2 as [o2 Ho2].
        rewrite (print_msg_undefined this a msg args h2 o2 Hout Ho2 Hbody)
          in Hrun.
        discriminate Hrun.
    - rewrite entry_point_printLevel, (printLevel_gated _ _ _ _ _ Hgt) in Hrun.
      injection Hrun as <-. exists "".
      rewrite string_app_nil_r, insert_id by exact Ho. reflexivity. }
  destruct Hw as [w ->]. split.
  - exists w. apply lookup_insert_eq.
  - intros b Hb. apply lookup_insert_ne. congruence.
Qed.

Lemma call_only_appends_witness :
  (∃ w, ({[ 0%nat := "old|E: x"; 1%nat := "other" ]} : gmap nat string) !! 0%nat
        = Some ("old|" +:+ w))
  ∧ (∀ b, b ≠ 0%nat →
       ({[ 0%nat := "old|E: x"; 1%nat := "other" ]} : gmap nat string) !! b
       = ({[ 0%nat := "old|"; 1%nat := "other" ]} : gmap nat string) !! b).
Proof.
  refine (call_only_appends (platform := avr) ERROR
            (begin LOG_LEVEL_ERROR (Some 0%nat) true Logging_new) 0%nat
            (ram (c_str "x")) [] {[ 0%nat := "old|"; 1%nat := "other" ]}
            {[ 0%nat := "old|E: x"; 1%nat := "other" ]} "old|" "" ""
            _ _ _ _ _); vm_compute; reflexivity.
Defined.

(** *** Arguments *)

Ltac specifier_cases c :=
  repeat match goal with
         | |- context [(c =? ?x)%char] =>
             destruct (Ascii.eqb_spec c x) as [->|?]; simpl
         end.

Ltac run_writes :=
  repeat first
    [ progress simpl
    | match goal with
      | |- context [Print.write ?p ?s ?h0] => destruct (Print.write p s h0)
      | |- context [if (?n =? 1)%Z then _ else _] => destruct (n =? 1)%Z
      end ].

Lemma printFormat_more_args {platform : Platform} (this : Logging)
    (c : ascii) (args args' extra : va_list) (h h' : heap) :
  printFormat this c args h = Some (args', h') →
  printFormat this c (args ++ extra)%list h = Some ((args' ++ extra)%list, h').
Proof.
  unfold printFormat, Print.print_char, Print.print_str, Print.print_long,
    Print.print_ulong, Print.print_double.
  destruct platform as [esp dbl pdbl]; destruct esp; simpl;
    specifier_cases c;
    destruct args as [|[] args]; run_writes;
    try discriminate; intros [= <- <-]; reflexivity.
Qed.

(** X10: one conversion pulls at most one argument: when [printFormat]
    returns, a specifier that has an argument-taking branch ('S' and 'I'
    only without [ESP8266]) has removed exactly the first argument, and any
    other character, '%' included, has left the argument list as it was. *)
Theorem printFormat_pulls {platform : Platform} (this : Logging)
    (c : ascii) (args args' : va_list) (h h' : heap) :
  printFormat this c args h = Some (args', h') →
  if takes_argument c then ∃ v, args = v :: args' else args' = args.
Proof.
  unfold takes_argument, printFormat, Print.print_char, Print.print_str,
    Print.print_long, Print.print_ulong, Print.print_double.
  destruct platform as [esp dbl pdbl]; destruct esp; simpl;
    specifier_cases c;
    destruct args as [|[] args]; run_writes;
    try discriminate; intros [= <- <-]; try reflexivity; eexists; reflexivity.
Qed.

Lemma printFormat_pulls_witness :
  ∃ v, [va_int (platform := avr) 10; va_long 2] = v :: [va_long 2].
Proof.
  exact (printFormat_pulls (platform := avr) probe "x" [va_int 10; va_long 2]
           [va_long 2] {[ 0%nat := "" ]} {[ 0%nat := "a" ]} eq_refl).
Defined.

Lemma print_more_args {platform : Platform} (this : Logging)
    (extra : va_list) (format : string) :
  ∀ (args : va_list) (h h' : heap),
    print this format args h = Some h' →
    print this format (args ++ extra)%list h = Some h'.
Proof.
  remember (String.length format) as n eqn:Hn. revert format Hn.
  induction (lt_wf n) as [n _ IH]. intros format -> args h h'.
  destruct format as [|c format1]; [discriminate|].
  cbn [print]. destruct (c =? NUL)%char; [exact id|].
  destruct (c =? "%")%char.
  - destruct format1 as [|c1 format2]; [discriminate|].
    destruct (printFormat this c1 args h) as [[args1 h1]|] eqn:Hpf;
      [|discriminate].
    rewrite (printFormat_more_args this c1 args args1 extra h h1 Hpf).
    cbn [mbind option_bind].
    apply (IH (String.length format2) ltac:(simpl; lia) format2 eq_refl).
  - destruct (Print.print_char (_logOutput this) c h) as [h1|];
      [|discriminate].
    cbn [mbind option_bind].
    apply (IH (String.length format1) ltac:(simpl; lia) format1 eq_refl).
Qed.

(** X8: arguments that no specifier asks for are ignored: a call that is
    defined gives the same result when further arguments follow the ones it
    was given, through either scanner and through every entry point. *)
Theorem surplus_arguments_ignored {platform : Platform} (this : Logging)
    (msg : format_t) (args extra : va_list) (h h' : heap) :
  (print_msg this msg args h = Some h' →
   print_msg this msg (args ++ extra)%list h = Some h')
  ∧ (∀ s, entry_point s this msg args h = Some h' →
          entry_point s this msg (args ++ extra)%list h = Some h').
Proof.
  assert (Hmsg : ∀ h0 h1, print_msg this msg args h0 = Some h1 →
                          print_msg this msg (args ++ extra)%list h0 = Some h1).
  { intros h0 h1. destruct msg as [format|format]; cbn [print_msg];
      rewrite ?print_P_print; apply print_more_args. }
  split; [apply Hmsg|].
  intros s. rewrite !entry_point_printLevel. unfold printLevel.
  destruct (level_of s >? _level this); [exact id|].
  destruct (match _prefix this with
            | Some f => f (_logOutput this) h | None => Some h end) as [h1|];
    [|discriminate].
  cbn [mbind option_bind].
  destruct (if _showLevel this then _ else _) as [h2|]; [|discriminate].
  cbn [mbind option_bind].
  destruct (print_msg this msg args h2) as [h3|] eqn:Hrun; [|discriminate].
  rewrite (Hmsg h2 h3 Hrun). exact id.
Qed.

Lemma surplus_arguments_ignored_witness :
  print_msg (platform := avr) probe (ram (c_str "n=%d"))
    ([va_int 5] ++ [va_long 1; va_int 2])%list {[ 0%nat := "" ]}
  = Some {[ 0%nat := "n=5" ]}.
Proof.
  refine (proj1 (surplus_arguments_ignored (platform := avr) probe
                   (ram (c_str "n=%d")) [va_int 5] [va_long 1; va_int 2]
                   {[ 0%nat := "" ]} {[ 0%nat := "n=5" ]}) _).
  vm_compute. reflexivity.
Defined.

Lemma print_longer_array {platform : Platform} (this : Logging)
    (more : string) (format : string) :
  ∀ (args : va_list) (h h' : heap),
    print this format args h = Some h' →
    print this (format +:+ more) args h = Some h'.
Proof.
  remember (String.length format) as n eqn:Hn. revert format Hn.
  induction (lt_wf n) as [n _ IH]. intros format -> args h h'.
  destruct format as [|c format1]; [discriminate|].
  change (String c format1 +:+ more) with (String c (format1 +:+ more)).
  cbn [print]. destruct (c =? NUL)%char; [exact id|].
  destruct (c =? "%")%char.
  - destruct format1 as [|c1 format2]; [discriminate|].
    change (String c1 format2 +:+ more) with (String c1 (format2 +:+ more)).
    cbn match.
    destruct (printFormat this c1 args h) as [[args1 h1]|]; [|discriminate].
    cbn [mbind option_bind].
    apply (IH (String.length format2) ltac:(simpl; lia) format2 eq_refl).
  - destruct (Print.print_char (_logOutput this) c h) as [h1|];
      [|discriminate].
    cbn [mbind option_bind].
    apply (IH (String.length format1) ltac:(simpl; lia) format1 eq_refl).
Qed.

(** X9: a scan that is defined has stopped at a terminator inside the
    array it was given: whatever characters follow that array in memory, the
    result is the same, through either scanner. *)
Theorem scan_stops_at_terminator {platform : Platform} (this : Logging)
    (format more : string) (args : va_list) (h h' : heap) :
  (print this format args h = Some h' →
   print this (format +:+ more) args h = Some h')
  ∧ (print_P this format args h = Some h' →
     print_P this (format +:+ more) args h = Some h').
Proof.
  split; rewrite ?print_P_print; apply print_longer_array.
Qed.

Lemma scan_stops_at_terminator_witness :
  print (platform := avr) probe (c_str "ok" +:+ "%d junk") []
    {[ 0%nat := "" ]}
  = Some {[ 0%nat := "ok" ]}.
Proof.
  refine (proj1 (scan_stops_at_terminator (platform := avr) probe (c_str "ok")
                   "%d junk" [] {[ 0%nat := "" ]} {[ 0%nat := "ok" ]}) _).
  vm_compute. reflexivity.
Defined.

(** *** The conversions outside the integer and boolean ones *)

(** X11: in a build with [ESP8266] the characters 'S' and 'I' are not
    specifiers: [printFormat] writes nothing for them and leaves their
    argument in the list, so the scan goes on with that argument still
    first; without [ESP8266], 'S' on a live sink writes the String argument
    and removes it. *)
Theorem esp8266_skips_S_and_I {platform : Platform} (this : Logging)
    (c : ascii) (rest : string) (args : va_list) (h : heap) :
  c = "S"%char ∨ c = "I"%char →
  (ESP8266 = true →
   printFormat this c args h = Some (args, h)
   ∧ print this (String "%" (String c rest)) args h = print this rest args h)
  ∧ (ESP8266 = false →
     ∀ a o s args', _logOutput this = Some a → h !! a = Some o →
       printFormat this "S" (va_String s :: args') h
       = Some (args', <[a := o +:+ s]> h)).
Proof.
  intros Hc. split.
  - intros Hesp.
    assert (Hpf : printFormat this c args h = Some (args, h)).
    { unfold printFormat. rewrite Hesp.
      destruct Hc as [-> | ->]; reflexivity. }
    split; [exact Hpf|].
    cbn [print]. change ("%" =? NUL)%char with false.
    change ("%" =? "%")%char with true. cbn match. rewrite Hpf. reflexivity.
  - intros Hesp a o s args' Hout Ho. unfold printFormat. rewrite Hesp. simpl.
    unfold Print.print_str. rewrite Hout, (write_valid a _ o h Ho).
    reflexivity.
Qed.

Lemma esp8266_skips_S_and_I_witness :
  print (platform := esp8266) probe (String "%" (String "S" (c_str "%d")))
    [va_String "lost"; va_int 1] {[ 0%nat := "" ]}
  = print (platform := esp8266) probe (c_str "%d")
      [va_String "lost"; va_int 1] {[ 0%nat := "" ]}.
Proof.
  refine (proj2 (proj1 (esp8266_skips_S_and_I (platform := esp8266) probe "S"
                          (c_str "%d") [va_String "lost"; va_int 1]
                          {[ 0%nat := "" ]} (or_introl eq_refl)) eq_refl)).
Defined.

Lemma ascii_low_byte (c : ascii) :
  ascii_of_N (Z.to_N (Z.of_N (N_of_ascii c) mod 256)) = c.
Proof.
  pose proof (N_ascii_bounded c) as Hb.
  rewrite Z.mod_small by lia. rewrite N2Z.id. apply ascii_N_embedding.
Qed.

(** X12: string and character arguments reach the sink as they are and are
    not scanned for specifiers: through either scanner "%s" writes the
    characters of its [char*] argument and "%P" those of its flash string,
    whatever they contain, and "%c" writes back every character that was
    passed as an [int]. *)
Theorem text_arguments_verbatim {platform : Platform} (this : Logging)
    (a : nat) (h : heap) (o : string) (mk : string → format_t) :
  _logOutput this = Some a → h !! a = Some o → mk = ram ∨ mk = flash →
  (∀ s, print_msg this (mk (c_str "%s")) [va_charp s] h
        = Some (<[a := o +:+ s]> h))
  ∧ (∀ s, print_msg this (mk (c_str "%P")) [va_flashp s] h
          = Some (<[a := o +:+ s]> h))
  ∧ (∀ c, print_msg this (mk (c_str "%c")) [va_int (Z.of_N (N_of_ascii c))] h
          = Some (<[a := o +:+ String c ""]> h)).
Proof.
  intros Hout Ho Hmk.
  assert (Hram : ∀ fmt args w,
            printFormat this fmt args h = Some ([], <[a := o +:+ w]> h) →
            print_msg this (mk (String "%" (String fmt (String NUL "")))) args h
            = Some (<[a := o +:+ w]> h)).
  { intros fmt args w Hpf.
    destruct Hmk as [-> | ->]; cbn [print_msg]; rewrite ?print_P_print;
      cbn [print]; change ("%" =? NUL)%char with false;
      change ("%" =? "%")%char with true; cbn match; rewrite Hpf;
      reflexivity. }
  repeat split; intros x.
  - apply (Hram "s"%char). unfold printFormat. simpl.
    unfold Print.print_str. rewrite Hout, (write_valid a _ o h Ho).
    reflexivity.
  - apply (Hram "P"%char). unfold printFormat. simpl.
    destruct (negb ESP8266); simpl;
      unfold Print.print_str; rewrite Hout, (write_valid a _ o h Ho);
      reflexivity.
  - apply (Hram "c"%char). unfold printFormat. simpl.
    destruct (negb ESP8266); simpl;
      unfold Print.print_char; rewrite Hout, (write_valid a _ o h Ho);
      simpl; rewrite ascii_low_byte; reflexivity.
Qed.

Lemma text_arguments_verbatim_witness :
  print_msg (platform := avr) probe (ram (c_str "%s")) [va_charp "50%d"]
    {[ 0%nat := "" ]}
  = Some (<[ 0%nat := "" +:+ "50%d" ]> {[ 0%nat := "" ]}).
Proof.
  refine (proj1 (text_arguments_verbatim (platform := avr) probe 0%nat
                   {[ 0%nat := "" ]} "" ram _ _ _) "50%d");
    [reflexivity | vm_compute; reflexivity | left; reflexivity].
Defined.

Lemma sprintf_d_length (v : byte) :
  (1 ≤ String.length (sprintf_d v) ≤ 3)%nat.
Proof. destruct v; vm_compute; split; lia. Qed.

(** X13: without [ESP8266], "%I" on a live sink writes the four octets of
    the address in decimal with dots between them and removes the argument;
    the text is at most 15 characters long, so with its terminator it fits
    the 16 characters of the buffer it is built in. *)
Theorem address_text_fits_buffer {platform : Platform} (this : Logging)
    (a : nat) (ip0 ip1 ip2 ip3 : byte) (args : va_list) (h : heap)
    (o : string) :
  ESP8266 = false → _logOutput this = Some a → h !! a = Some o →
  printFormat this "I" (va_IPAddress ip0 ip1 ip2 ip3 :: args) h
  = Some (args, <[a := o +:+ dotted_quad ip0 ip1 ip2 ip3]> h)
  ∧ (7 ≤ String.length (dotted_quad ip0 ip1 ip2 ip3) ∧
     String.length (dotted_quad ip0 ip1 ip2 ip3) + 1 ≤ 16)%nat.
Proof.
  intros Hesp Hout Ho. split.
  - unfold printFormat. rewrite Hesp. simpl. unfold Print.print_str.
    rewrite Hout, (write_valid a _ o h Ho). reflexivity.
  - unfold dotted_quad. rewrite !string_app_length.
    pose proof (sprintf_d_length ip0). pose proof (sprintf_d_length ip1).
    pose proof (sprintf_d_length ip2). pose proof (sprintf_d_length ip3).
    change (String.length ".") with 1%nat. lia.
Qed.

Lemma address_text_fits_buffer_witness :
  printFormat (platform := avr) probe "I"
    [va_IPAddress xc0 xa8 x01 xfe] {[ 0%nat := "" ]}
  = Some ([], <[ 0%nat := "" +:+ dotted_quad xc0 xa8 x01 xfe ]>
                {[ 0%nat := "" ]}).
Proof.
  refine (proj1 (address_text_fits_buffer (platform := avr) probe 0%nat
                   xc0 xa8 x01 xfe [] {[ 0%nat := "" ]} "" _ _ _));
    vm_compute; reflexivity.
Defined.

(** ** The gate and the escape, seen on the sink *)

Lemma print_plain_end {platform : Platform} (this : Logging) (a : nat)
    (lit : string) (args : va_list) (h : heap) (o : string) :
  _logOutput this = Some a → plain lit = true → h !! a = Some o →
  print this (c_str lit) args h = Some (<[a := o +:+ lit]> h).
Proof.
  intros Hout Hplain Ho. unfold c_str.
  rewrite (print_plain_prefix this a lit _ args Hout Hplain h o Ho).
  reflexivity.
Qed.

Lemma print_percent_percent {platform : Platform} (this : Logging) (a : nat)
    (rest : string) (args : va_list) (h : heap) (o : string) :
  _logOutput this = Some a → h !! a = Some o →
  print this (String "%" (String "%" rest)) args h
  = print this rest args (<[a := o +:+ "%"]> h).
Proof.
  intros Hout Ho. cbn [print]. change ("%" =? NUL)%char with false.
  change ("%" =? "%")%char with true. cbn match.
  rewrite (printFormat_percent this a o args h Hout Ho). reflexivity.
Qed.

Lemma print_percent_d {platform : Platform} (this : Logging) (a : nat)
    (rest : string) (n : Z) (args : va_list) (h : heap) (o : string) :
  _logOutput this = Some a → h !! a = Some o →
  print this (String "%" (String "d" rest)) (va_int n :: args) h
  = print this rest args (<[a := o +:+ Print.long_text n Print.DEC]> h).
Proof.
  intros Hout Ho. cbn [print]. change ("%" =? NUL)%char with false.
  change ("%" =? "%")%char with true. cbn match.
  assert (Hpf : printFormat this "d" (va_int n :: args) h
                = Some (args, <[a := o +:+ Print.long_text n Print.DEC]> h)).
  { unfold printFormat. simpl. rewrite !andb_false_r. simpl.
    unfold Print.print_long. rewrite Hout, (write_valid a _ o h Ho).
    reflexivity. }
  rewrite Hpf. reflexivity.
Qed.

(** Plain text, then a decimal conversion, then plain text. *)
Lemma print_text_decimal {platform : Platform} (this : Logging) (a : nat)
    (lit1 lit2 : string) (n : Z) (args : va_list) (h : heap) (o : string) :
  _logOutput this = Some a → h !! a = Some o →
  plain lit1 = true → plain lit2 = true →
  print this (c_str (lit1 +:+ "%d" +:+ lit2)) (va_int n :: args) h
  = Some (<[a := o +:+ lit1 +:+ Print.long_text n Print.DEC +:+ lit2]> h).
Proof.
  intros Hout Ho Hp1 Hp2. unfold c_str. rewrite !string_app_assoc.
  rewrite (print_plain_prefix this a lit1 _ _ Hout Hp1 h o Ho).
  change ("%d" +:+ (lit2 +:+ String NUL ""))
    with (String "%" (String "d" (c_str lit2))).
  rewrite (print_percent_d this a _ n args _ _ Hout (lookup_insert_eq h a _)).
  rewrite (print_plain_end this a lit2 args _ _ Hout Hp2
             (lookup_insert_eq _ a _)).
  rewrite !insert_insert_eq, !string_app_assoc. reflexivity.
Qed.

(** Plain text, then the escape, then plain text. *)
Lemma print_text_percent {platform : Platform} (this : Logging) (a : nat)
    (lit1 lit2 : string) (args : va_list) (h : heap) (o : string) :
  _logOutput this = Some a → h !! a = Some o →
  plain lit1 = true → plain lit2 = true →
  print this (c_str (lit1 +:+ "%%" +:+ lit2)) args h
  = Some (<[a := o +:+ lit1 +:+ "%" +:+ lit2]> h).
Proof.
  intros Hout Ho Hp1 Hp2. unfold c_str. rewrite !string_app_assoc.
  rewrite (print_plain_prefix this a lit1 _ _ Hout Hp1 h o Ho).
  change ("%%" +:+ (lit2 +:+ String NUL ""))
    with (String "%" (String "%" (c_str lit2))).
  rewrite (print_percent_percent this a _ args _ _ Hout
             (lookup_insert_eq h a _)).
  rewrite (print_plain_end this a lit2 args _ _ Hout Hp2
             (lookup_insert_eq _ a _)).
  rewrite !insert_insert_eq, !string_app_assoc. reflexivity.
Qed.

(** Plain text, then the escape, then a decimal conversion, then plain
    text. *)
Lemma print_text_percent_decimal {platform : Platform} (this : Logging)
    (a : nat) (lit1 lit2 : string) (n : Z) (args : va_list) (h : heap)
    (o : string) :
  _logOutput this = Some a → h !! a = Some o →
  plain lit1 = true → plain lit2 = true →
  print this (c_str (lit1 +:+ "%%%d" +:+ lit2)) (va_int n :: args) h
  = Some (<[a := o +:+ lit1 +:+ "%" +:+ Print.long_text n Print.DEC
                 +:+ lit2]> h).
Proof.
  intros Hout Ho Hp1 Hp2. unfold c_str. rewrite !string_app_assoc.
  rewrite (print_plain_prefix this a lit1 _ _ Hout Hp1 h o Ho).
  change ("%%%d" +:+ (lit2 +:+ String NUL ""))
    with (String "%" (String "%" (String "%" (String "d" (c_str lit2))))).
  rewrite (print_percent_percent this a _ _ _ _ Hout (lookup_insert_eq h a _)).
  rewrite (print_percent_d this a _ n args _ _ Hout (lookup_insert_eq _ a _)).
  rewrite (print_plain_end this a lit2 args _ _ Hout Hp2
             (lookup_insert_eq _ a _)).
  rewrite !insert_insert_eq, !string_app_assoc. reflexivity.
Qed.

Lemma print_msg_either {platform : Platform} (this : Logging)
    (mk : string → format_t) (format : string) (args : va_list) (h : heap) :
  mk = ram ∨ mk = flash →
  print_msg this (mk format) args h = print this format args h.
Proof.
  intros [-> | ->]; cbn [print_msg]; [reflexivity | apply print_P_print].
Qed.

Lemma formatted_of_print {platform : Platform} (mk : string → format_t)
    (format : string) (args : va_list) (w : string) :
  mk = ram ∨ mk = flash →
  print probe format args {[ 0%nat := "" ]}
  = Some (<[ 0%nat := "" +:+ w ]> {[ 0%nat := "" ]}) →
  formatted (mk format) args = Some w.
Proof.
  intros Hmk Hrun. unfold formatted.
  rewrite (print_msg_either probe mk format args _ Hmk), Hrun.
  cbn [mbind option_bind]. apply lookup_insert_eq.
Qed.

(** C6: at the sequence "%%" the interpreter writes the one character '%'
    to the sink and leaves the argument list as it was: [printFormat] returns
    the arguments it was given, both scanners go on after the sequence with
    the same arguments, and on the sink a format with "%%" between plain
    texts leaves the first text, one '%' and the second text, while a "%d"
    right after the "%%" still receives the first argument. *)
Theorem percent_escape {platform : Platform} (this : Logging) (a : nat)
    (o rest : string) (args : va_list) (h : heap) :
  _logOutput this = Some a →
  h !! a = Some o →
  printFormat this "%" args h = Some (args, <[a := o +:+ "%"]> h)
  ∧ print this (String "%" (String "%" rest)) args h
    = print this rest args (<[a := o +:+ "%"]> h)
  ∧ print_P this (String "%" (String "%" rest)) args h
    = print_P this rest args (<[a := o +:+ "%"]> h)
  ∧ (∀ mk lit1 lit2, mk = ram ∨ mk = flash →
       plain lit1 = true → plain lit2 = true →
       print_msg this (mk (c_str (lit1 +:+ "%%" +:+ lit2))) args h
       = Some (<[a := o +:+ lit1 +:+ "%" +:+ lit2]> h)
       ∧ ∀ n,
           print_msg this (mk (c_str (lit1 +:+ "%%%d" +:+ lit2)))
             (va_int n :: args) h
           = Some (<[a := o +:+ lit1 +:+ "%" +:+ Print.long_text n Print.DEC
                          +:+ lit2]> h)).
Proof.
  intros Hout Ho.
  split; [exact (printFormat_percent this a o args h Hout Ho)|].
  split; [exact (print_percent_percent this a rest args h o Hout Ho)|].
  split.
  - rewrite !print_P_print.
    exact (print_percent_percent this a rest args h o Hout Ho).
  - intros mk lit1 lit2 Hmk Hp1 Hp2. split; [|intros n];
      rewrite (print_msg_either this mk _ _ _ Hmk).
    + apply print_text_percent; assumption.
    + apply print_text_percent_decimal; assumption.
Qed.

Lemma percent_escape_witness :
  print_msg (platform := avr) (setOutput (Some 0%nat) Logging_new)
    (flash (c_str ("load " +:+ "%%%d" +:+ "!"))) (va_int 3 :: [va_long 9])
    {[ 0%nat := ">" ]}
  = Some (<[ 0%nat := ">" +:+ "load " +:+ "%" +:+ Print.long_text 3 Print.DEC
                        +:+ "!" ]> {[ 0%nat := ">" ]}).
Proof.
  refine (proj2 (proj2 (proj2 (proj2
            (percent_escape (platform := avr)
               (setOutput (Some 0%nat) Logging_new) 0%nat ">" "" [va_long 9]
               {[ 0%nat := ">" ]} _ _)))
            flash "load " "!" _ _ _) 3);
    first [reflexivity | vm_compute; reflexivity | right; reflexivity].
Defined.

(** C1: for each of the six entry points, with severity L, and any
    threshold T: on a live sink with no hooks or hooks that write, a message
    whose formatted body is not empty has that body written to the sink
    exactly when L <= T; when T < L every sink is left as it was, and at
    threshold SILENT no entry point writes anything, whatever the hooks and
    the sink pointer.  On the sink itself, through either scanner: a text
    used as the format with its '%' doubled, and a format of plain text
    around one "%d", arrive after the prefix output and the level indicator
    and before the suffix output when L <= T, and leave the sinks as they
    were when T < L. *)
Theorem leveled_call_emits_iff {platform : Platform} (s : severity)
    (this : Logging) (msg : format_t) (args : va_list) (h : heap) :
  (∀ (a : nat) (o pre suf body : string),
     _logOutput this = Some a → h !! a = Some o →
     hook_writes a (_prefix this) pre → hook_writes a (_suffix this) suf →
     formatted msg args = Some body → body ≠ "" →
     (∃ before after,
        entry_point s this msg args h
        = Some (<[a := o +:+ before +:+ body +:+ after]> h))
     ↔ level_of s ≤ _level this)
  ∧ (_level this < level_of s → entry_point s this msg args h = Some h)
  ∧ (_level this = LOG_LEVEL_SILENT → entry_point s this msg args h = Some h)
  ∧ (∀ (a : nat) (o pre suf : string) (mk : string → format_t),
       _logOutput this = Some a → h !! a = Some o →
       hook_writes a (_prefix this) pre → hook_writes a (_suffix this) suf →
       mk = ram ∨ mk = flash →
       (∀ txt, no_nul txt = true →
          entry_point s this (mk (c_str (escape_percent txt))) args h
          = Some (if level_of s <=? _level this
                  then <[a := o +:+ pre +:+ indicator (_showLevel this) s
                                +:+ txt +:+ suf]> h
                  else h))
       ∧ (∀ lit1 lit2 n, plain lit1 = true → plain lit2 = true →
            entry_point s this (mk (c_str (lit1 +:+ "%d" +:+ lit2)))
              (va_int n :: args) h
            = Some (if level_of s <=? _level this
                    then <[a := o +:+ pre +:+ indicator (_showLevel this) s
                                  +:+ (lit1 +:+ Print.long_text n Print.DEC
                                       +:+ lit2) +:+ suf]> h
                    else h))).
Proof.
  split; [|split; [|split]].
  - intros a o pre suf body Hout Ho Hpre Hsuf Hbody Hne. split.
    + intros (before & after & Hrun).
      destruct (Z.le_gt_cases (level_of s) (_level this)) as [Hle|Hgt];
        [exact Hle | exfalso].
      rewrite entry_point_printLevel, (printLevel_gated _ _ _ _ _ Hgt) in Hrun.
      injection Hrun as Hh.
      assert (Hlook : h !! a = Some (o +:+ before +:+ body +:+ after)).
      { rewrite Hh at 1. apply lookup_insert_eq. }
      rewrite Ho in Hlook. injection Hlook as Hlen.
      apply (f_equal String.length) in Hlen.
      rewrite !string_app_length in Hlen.
      destruct body as [|c body]; [contradiction | simpl in Hlen; lia].
    + intros Hle. exists (pre +:+ indicator (_showLevel this) s), suf.
      rewrite (entry_point_emits s this a msg args h o pre suf body
                 Hout Ho Hle Hpre Hsuf Hbody).
      rewrite (string_app_assoc pre). reflexivity.
  - intros Hlt. rewrite entry_point_printLevel.
    apply printLevel_gated. exact Hlt.
  - intros Hsilent. rewrite entry_point_printLevel.
    apply printLevel_gated. rewrite Hsilent. destruct s; vm_compute; reflexivity.
  - intros a o pre suf mk Hout Ho Hpre Hsuf Hmk.
    assert (Hgate : ∀ msg' args' body,
              formatted msg' args' = Some body →
              entry_point s this msg' args' h
              = Some (if level_of s <=? _level this
                      then <[a := o +:+ pre +:+ indicator (_showLevel this) s
                                    +:+ body +:+ suf]> h
                      else h)).
    { intros msg' args' body Hbody.
      destruct (Z.leb_spec (level_of s) (_level this)) as [Hle|Hgt].
      - apply entry_point_emits; assumption.
      - rewrite entry_point_printLevel. apply printLevel_gated. exact Hgt. }
    split.
    + intros txt Htxt. apply Hgate. apply formatted_of_print; [exact Hmk|].
      apply (print_escaped_text probe 0%nat txt args eq_refl Htxt).
      apply lookup_singleton_eq.
    + intros lit1 lit2 n Hp1 Hp2. apply Hgate.
      apply formatted_of_print; [exact Hmk|].
      apply (print_text_decimal probe 0%nat lit1 lit2 n args _ "" eq_refl
               (lookup_singleton_eq 0%nat "") Hp1 Hp2).
Qed.

Lemma leveled_call_emits_iff_witness :
  ((∃ before after,
      error (platform := avr)
        (begin LOG_LEVEL_WARNING (Some 0%nat) false Logging_new)
        (flash (c_str "x=%d")) [va_int 1] {[ 0%nat := "" ]}
      = Some (<[ 0%nat := "" +:+ before +:+ "x=1" +:+ after ]> {[ 0%nat := "" ]}))
   ↔ level_of ERROR ≤ _level (begin LOG_LEVEL_WARNING (Some 0%nat) false Logging_new))
  ∧ notice (platform := avr)
      (begin LOG_LEVEL_WARNING (Some 0%nat) false Logging_new)
      (flash (c_str "x=%d")) [va_int 1] {[ 0%nat := "" ]}
    = Some {[ 0%nat := "" ]}
  ∧ fatal (platform := avr) (begin LOG_LEVEL_SILENT (Some 0%nat) false Logging_new)
      (flash (c_str "x=%d")) [va_int 1] {[ 0%nat := "" ]}
    = Some {[ 0%nat := "" ]}
  ∧ entry_point (platform := avr) ERROR
      (begin LOG_LEVEL_WARNING (Some 0%nat) true Logging_new)
      (flash (c_str ("x=" +:+ "%d" +:+ ";"))) (va_int 1 :: []) {[ 0%nat := "" ]}
    = Some (if level_of ERROR
               <=? _level (begin LOG_LEVEL_WARNING (Some 0%nat) true Logging_new)
            then <[ 0%nat := "" +:+ "" +:+ indicator
                               (_showLevel (begin LOG_LEVEL_WARNING (Some 0%nat)
                                              true Logging_new)) ERROR
                             +:+ ("x=" +:+ Print.long_text 1 Print.DEC +:+ ";")
                             +:+ "" ]> {[ 0%nat := "" ]}
            else {[ 0%nat := "" ]}).
Proof.
  split; [|split; [|split]].
  - refine (proj1 (leveled_call_emits_iff (platform := avr) ERROR
                     (begin LOG_LEVEL_WARNING (Some 0%nat) false Logging_new)
                     (flash (c_str "x=%d")) [va_int 1] {[ 0%nat := "" ]})
              0%nat "" "" "" "x=1" _ _ _ _ _ _).
    + reflexivity.
    + vm_compute. reflexivity.
    + reflexivity.
    + reflexivity.
    + vm_compute. reflexivity.
    + discriminate.
  - refine (proj1 (proj2 (leveled_call_emits_iff (platform := avr) NOTICE
                     (begin LOG_LEVEL_WARNING (Some 0%nat) false Logging_new)
                     (flash (c_str "x=%d")) [va_int 1] {[ 0%nat := "" ]})) _).
    vm_compute. reflexivity.
  - refine (proj1 (proj2 (proj2 (leveled_call_emits_iff (platform := avr) FATAL
                     (begin LOG_LEVEL_SILENT (Some 0%nat) false Logging_new)
                     (flash (c_str "x=%d")) [va_int 1] {[ 0%nat := "" ]}))) _).
    vm_compute. reflexivity.
  - refine (proj2 (proj2 (proj2 (proj2
              (leveled_call_emits_iff (platform := avr) ERROR
                 (begin LOG_LEVEL_WARNING (Some 0%nat) true Logging_new)
                 (flash (c_str "x")) [] {[ 0%nat := "" ]})))
              0%nat "" "" "" flash _ _ _ _ _) "x=" ";" 1 _ _);
      first [reflexivity | vm_compute; reflexivity | right; reflexivity].
Defined.
